(** * pyannote-api-toolkit: record schema, record store, confidence queries
      and the dashboard's form handlers

    Sources embedded here:
    - [backend/mongo/init-mongo.js]: the [$jsonSchema] validator of the
      [file_infos] collection and its unique index on [filename];
    - the dashboard script: [deleteOptionByValue], [cleanData],
      [resetFileInputFields], [fillTable] and the submit handlers of the
      upload, deletion and the three range-query forms.

    The query engine itself (the gateway that answers
    [/get_filenames_by_mean_scores] and the two [..._by_filename] routes)
    is not part of these sources; module [Query] models it from the
    written specification. *)

From Stdlib Require Import ZArith QArith List String Ascii Bool Sorted Lia.
From stdpp Require Import gmap strings list pretty.

Set Warnings "-register-all".

Local Open Scope string_scope.
Local Open Scope list_scope.
Local Open Scope Z_scope.

(* ===================================================================== *)
(** ** BSON values and the [$jsonSchema] validator *)
(* ===================================================================== *)

Module Schema.

(** BSON type tags, as named by the [bsonType] keyword. *)
Inductive btype :=
| TInt | TLong | TDouble | TString | TBool | TNull | TObjectId | TArray | TObject.

Definition btype_eqb (a b : btype) : bool :=
  match a, b with
  | TInt, TInt | TLong, TLong | TDouble, TDouble | TString, TString
  | TBool, TBool | TNull, TNull | TObjectId, TObjectId
  | TArray, TArray | TObject, TObject => true
  | _, _ => false
  end.

(** BSON values. A document is an ordered list of fields; doubles are
    modelled by rationals (finite values only). *)
Inductive bson :=
| BInt (n : Z)
| BLong (n : Z)
| BDouble (x : Q)
| BString (s : string)
| BBool (b : bool)
| BNull
| BObjectId (oid : string)
| BArray (elems : list bson)
| BObject (fields : list (string * bson)).

Definition document := list (string * bson).

Definition type_of (v : bson) : btype :=
  match v with
  | BInt _ => TInt
  | BLong _ => TLong
  | BDouble _ => TDouble
  | BString _ => TString
  | BBool _ => TBool
  | BNull => TNull
  | BObjectId _ => TObjectId
  | BArray _ => TArray
  | BObject _ => TObject
  end.

(** Field access: the first field carrying the name. *)
Fixpoint get_field (k : string) (d : document) : option bson :=
  match d with
  | [] => None
  | (k', v) :: d' => if String.eqb k k' then Some v else get_field k d'
  end.

Definition has_field (k : string) (d : document) : bool :=
  match get_field k d with Some _ => true | None => false end.

(** Replace (or add) a field, and drop a field. *)
Fixpoint remove_field (k : string) (d : document) : document :=
  match d with
  | [] => []
  | (k', v) :: d' =>
      if String.eqb k k' then remove_field k d' else (k', v) :: remove_field k d'
  end.

Definition set_field (k : string) (v : bson) (d : document) : document :=
  (k, v) :: remove_field k d.

(** Numeric reading of a value, for [minimum] and [maximum]. *)
Definition numeric (v : bson) : option Q :=
  match v with
  | BInt n | BLong n => Some (inject_Z n)
  | BDouble x => Some x
  | _ => None
  end.

Fixpoint bson_eqb (a b : bson) {struct a} : bool :=
  match a, b with
  | BInt m, BInt n | BLong m, BLong n => Z.eqb m n
  | BDouble x, BDouble y => Qeq_bool x y
  | BString s, BString t | BObjectId s, BObjectId t => String.eqb s t
  | BBool x, BBool y => Bool.eqb x y
  | BNull, BNull => true
  | BArray l, BArray l' =>
      (fix go (l l' : list bson) : bool :=
         match l, l' with
         | [], [] => true
         | x :: r, y :: r' => bson_eqb x y && go r r'
         | _, _ => false
         end) l l'
  | BObject f, BObject f' =>
      (fix go (f f' : list (string * bson)) : bool :=
         match f, f' with
         | [], [] => true
         | (k, x) :: r, (k', y) :: r' => String.eqb k k' && bson_eqb x y && go r r'
         | _, _ => false
         end) f f'
  | _, _ => false
  end.

(** A schema node: the keywords that [init-mongo.js] uses. *)
Inductive schema := mkSchema {
  bsonType : option btype;
  minimum : option Q;
  maximum : option Q;
  enum : option (list bson);
  required : list string;
  properties : list (string * schema);
  items : option schema
}.

(** A node that only fixes the type. *)
Definition typed (t : btype) : schema :=
  mkSchema (Some t) None None None [] [] None.

Definition type_ok (s : schema) (v : bson) : bool :=
  match bsonType s with
  | Some t => btype_eqb t (type_of v)
  | None => true
  end.

(** [minimum] and [maximum] are inclusive and constrain numbers only. *)
Definition minimum_ok (s : schema) (v : bson) : bool :=
  match minimum s, numeric v with
  | Some lo, Some x => Qle_bool lo x
  | _, _ => true
  end.

Definition maximum_ok (s : schema) (v : bson) : bool :=
  match maximum s, numeric v with
  | Some hi, Some x => Qle_bool x hi
  | _, _ => true
  end.

Definition enum_ok (s : schema) (v : bson) : bool :=
  match enum s with
  | Some allowed => existsb (bson_eqb v) allowed
  | None => true
  end.

(** [required] constrains objects only. *)
Definition required_ok (s : schema) (v : bson) : bool :=
  match v with
  | BObject d => forallb (fun k => has_field k d) (required s)
  | _ => true
  end.

(** The validator: every keyword of the node must hold; [properties]
    constrains the fields that are present, [items] every element. *)
Fixpoint validate (s : schema) (v : bson) {struct s} : bool :=
  type_ok s v && minimum_ok s v && maximum_ok s v && enum_ok s v
  && required_ok s v
  && match v with
     | BObject d =>
         (fix props (ps : list (string * schema)) : bool :=
            match ps with
            | [] => true
            | (k, sk) :: ps' =>
                match get_field k d with
                | Some vk => validate sk vk
                | None => true
                end && props ps'
            end) (properties s)
     | _ => true
     end
  && match v, items s with
     | BArray l, Some si => forallb (validate si) l
     | _, _ => true
     end.

(** *** The [file_infos] validator of [init-mongo.js] *)

Definition int_between (lo hi : Z) : schema :=
  mkSchema (Some TInt) (Some (inject_Z lo)) (Some (inject_Z hi)) None [] [] None.

Definition double_from (lo : Q) : schema :=
  mkSchema (Some TDouble) (Some lo) None None [] [] None.

Definition double_between (lo hi : Q) : schema :=
  mkSchema (Some TDouble) (Some lo) (Some hi) None [] [] None.

(** [diarization_result.items] (lines 26-41). *)
Definition segment_schema : schema :=
  mkSchema (Some TObject) None None None
    ["start"; "end"; "speaker"; "confidence"]
    [ ("start", double_from 0);
      ("end", double_from 0);
      ("speaker", typed TString);
      ("confidence", typed TObject) ]
    None.

(** [sample_level_confidences] (lines 71-89). *)
Definition sample_level_confidences_schema : schema :=
  mkSchema (Some TObject) None None None
    ["score"; "resolution"]
    [ ("score",
       mkSchema (Some TArray) None None None [] [] (Some (int_between 0 100)));
      ("resolution", double_from 0) ]
    None.

(** The collection validator (lines 7-91). *)
Definition file_infos : schema :=
  mkSchema (Some TObject) None None None
    ["storage_type"; "filename"; "gridfs_id"; "nb_speakers"]
    [ ("human_score", int_between 0 100);
      ("sample_level_system_score", double_between 0 100);
      ("diarization_result",
       mkSchema (Some TArray) None None None [] [] (Some segment_schema));
      ("file_id", typed TString);
      ("storage_type",
       mkSchema (Some TString) None None (Some [BString "PyAnnote"]) [] [] None);
      ("filename", typed TString);
      ("gridfs_id", typed TObjectId);
      ("job_id", typed TString);
      ("nb_speakers", int_between 1 100);
      ("sample_level_confidences", sample_level_confidences_schema) ]
    None.

(** A diarization segment as a BSON object. *)
Definition segment (start end_ : Q) (speaker : string) (confidence : document)
  : bson :=
  BObject [ ("start", BDouble start); ("end", BDouble end_);
            ("speaker", BString speaker); ("confidence", BObject confidence) ].

(** The check that [properties] runs for one named field. *)
Definition check (k : string) (s : schema) (d : document) : bool :=
  match get_field k d with
  | Some v => validate s v
  | None => true
  end.

End Schema.

(* ===================================================================== *)
(** ** The [file_infos] collection: validated inserts under the unique
       index on [filename] *)
(* ===================================================================== *)

Module Store.
Import Schema.

Inductive write_error := ValidationError | DuplicateKey.

Definition collection := list document.

(** Key of the index created by
    [db.file_infos.createIndex({"filename": 1}, {unique: true})]:
    the value of [filename], a missing field being indexed as null. *)
Definition index_key (d : document) : bson :=
  match get_field "filename" d with
  | Some v => v
  | None => BNull
  end.

Definition key_taken (coll : collection) (d : document) : bool :=
  existsb (fun d' => bson_eqb (index_key d') (index_key d)) coll.

(** The document store's insert on this collection: the validator runs
    first, then the unique index is consulted. *)
Definition insertOne (coll : collection) (d : document)
  : write_error + collection :=
  if negb (validate file_infos (BObject d)) then inl ValidationError
  else if key_taken coll d then inl DuplicateKey
  else inr (coll ++ [d]).

(** Every stored document was validated and the stored filenames are
    pairwise distinct: the invariant that inserts maintain. *)
Definition well_formed (coll : collection) : Prop :=
  Forall (fun d => validate file_infos (BObject d) = true) coll
  /\ NoDup (map index_key coll).

(** A sample document carrying the fields required at creation. *)
Definition created_doc (filename : string) (nb : Z) : document :=
  [ ("storage_type", BString "PyAnnote"); ("filename", BString filename);
    ("gridfs_id", BObjectId "65f0c0ffee0000000000a001"); ("file_id", BString "file-1");
    ("nb_speakers", BInt nb) ].

(** The same document with sample-level confidences whose resolution
    is zero. *)
Definition zero_resolution_doc : document :=
  set_field "sample_level_confidences"
    (BObject [("score", BArray [BInt 40]); ("resolution", BDouble 0)])
    (created_doc "a.wav" 2).

End Store.

(* ===================================================================== *)
(** ** The dashboard script *)
(* ===================================================================== *)

Module UI.

(** *** JavaScript strings and numbers *)

Definition dquote : string := String (ascii_of_nat 34) EmptyString.

Definition code (c : ascii) : Z := Z.of_nat (nat_of_ascii c).

(** White space removed by [trim] and skipped by [parseInt] (the ASCII
    part of it: tab, line feed, vertical tab, form feed, carriage return,
    space). *)
Definition is_space (c : ascii) : bool :=
  ((9 <=? code c) && (code c <=? 13)) || (code c =? 32).

Fixpoint trim_start (s : string) : string :=
  match s with
  | String c r => if is_space c then trim_start r else s
  | EmptyString => s
  end.

Fixpoint drop_spaces (l : list ascii) : list ascii :=
  match l with
  | c :: r => if is_space c then drop_spaces r else l
  | [] => []
  end.

(** [String.prototype.trim]. *)
Definition trim (s : string) : string :=
  string_of_list_ascii
    (rev (drop_spaces (rev (list_ascii_of_string (trim_start s))))).

Definition lower (c : ascii) : ascii :=
  if (65 <=? code c) && (code c <=? 90)
  then ascii_of_nat (nat_of_ascii c + 32) else c.

(** [String.prototype.toLowerCase], on ASCII letters. *)
Fixpoint toLowerCase (s : string) : string :=
  match s with
  | String c r => String (lower c) (toLowerCase r)
  | EmptyString => EmptyString
  end.

(** [String.prototype.endsWith]. *)
Definition endsWith (s suffix : string) : bool :=
  let n := String.length s in
  let m := String.length suffix in
  (m <=? n)%nat && String.eqb (substring (n - m) m s) suffix.

(** A JavaScript string is falsy exactly when it is empty. *)
Definition falsy (s : string) : bool := String.eqb s EmptyString.

(** Numbers as [parseInt] produces them: an integer or [NaN]. *)
Inductive number := NaN | Num (z : Z).

(** [a >= b]: false as soon as one side is [NaN]. *)
Definition ge (a b : number) : bool :=
  match a, b with
  | Num x, Num y => y <=? x
  | _, _ => false
  end.

Definition digit_value (c : ascii) : option Z :=
  let n := code c in
  if (48 <=? n) && (n <=? 57) then Some (n - 48)
  else if (97 <=? n) && (n <=? 122) then Some (n - 87)
  else if (65 <=? n) && (n <=? 90) then Some (n - 55)
  else None.

(** The longest prefix of radix-[R] digits, read as an integer; [acc] is
    [None] until a first digit has been seen. *)
Fixpoint digits (R : Z) (s : string) (acc : option Z) : option Z :=
  match s with
  | String c r =>
      match digit_value c with
      | Some d =>
          if d <? R
          then digits R r (Some (R * match acc with Some a => a | None => 0 end + d))
          else acc
      | None => acc
      end
  | EmptyString => acc
  end.

(** [parseInt(s)] with no radix argument: leading white space, a sign, an
    optional [0x] prefix, then digits; [NaN] when no digit follows. *)
Definition parseInt (s : string) : number :=
  let s0 := trim_start s in
  let '(sign, s1) :=
    match s0 with
    | String c r =>
        if code c =? 45 then (-1, r)
        else if code c =? 43 then (1, r)
        else (1, s0)
    | EmptyString => (1, s0)
    end in
  let '(R, s2) :=
    match s1 with
    | String c0 (String c1 r) =>
        if (code c0 =? 48) && ((code c1 =? 120) || (code c1 =? 88))
        then (16, r) else (10, s1)
    | _ => (10, s1)
    end in
  match digits R s2 None with
  | Some m => Num (sign * m)
  | None => NaN
  end.

(** *** The page and the script's global state *)

Record file := { file_name : string; file_type : string }.

(** One row of a JSON result: an object read by column name. *)
Definition item := list (string * string).

Definition item_get (column : string) (it : item) : option string :=
  snd <$> List.find (fun kv => String.eqb (fst kv) column) it.

Inductive exn :=
| ReferenceError (ident : string)
| TypeError (what : string)
| Error (msg : string).

Inductive jsval := VStr (s : string) | VNum (n : number) | VFile (f : file).

Inductive event :=
| Log (msg : string)
| LogError (msg : string) (e : exn)
| Fetch (method url : string) (payload : list (string * jsval))
| RefreshData.

(** What the script can see and change:
    - [values]: the [value] of each input, slider and select, by id;
    - [audio_files]: the files held by the [audio] input;
    - [options]: the option values of each dropdown, by id;
    - [tables]: the body rows of each table, by id;
    - [window_props]: properties of the global object other than the
      script's own bindings;
    - [numberOfDocuments]: the script's counter;
    - [trace]: console output and requests, oldest first. *)
Record world := mkWorld {
  values : gmap string string;
  audio_files : list file;
  options : gmap string (list string);
  tables : gmap string (list (list (option string)));
  window_props : gmap string string;
  numberOfDocuments : Z;
  trace : list event
}.

Definition listIds : list string :=
  ["filenameLists"; "filenameSVG"; "filenameDiarisation"; "filenameListening";
   "filenameDeletion"; "filenameSample"; "filenameTurn"].

(** A parsed HTTP answer: [response.ok], and the [details] and [result]
    members of its JSON body when it has them. *)
Record response := {
  ok : bool;
  details : option string;
  result : option (list item)
}.

(** *** Computations: state, trace and exceptions *)

Definition js (A : Type) : Type := world -> (exn + A) * world.

Definition ret {A} (a : A) : js A := fun w => (inr a, w).

Definition throw {A} (e : exn) : js A := fun w => (inl e, w).

Definition bind {A B} (m : js A) (k : A -> js B) : js B :=
  fun w =>
    match m w with
    | (inr a, w') => k a w'
    | (inl e, w') => (inl e, w')
    end.

Definition try_catch {A} (m : js A) (handler : exn -> js A) : js A :=
  fun w =>
    match m w with
    | (inl e, w') => handler e w'
    | r => r
    end.

Declare Scope js_scope.
Delimit Scope js_scope with js.
Notation "x <~ m ;; k" := (bind m (fun x => k))
  (at level 90, m at next level, right associativity) : js_scope.
Notation "m ;;; k" := (bind m (fun _ => k))
  (at level 90, right associativity) : js_scope.
Local Open Scope js_scope.

Definition emit (e : event) : js unit :=
  fun w =>
    (inr tt,
     mkWorld (values w) (audio_files w) (options w) (tables w)
       (window_props w) (numberOfDocuments w) (trace w ++ [e])).

Definition console_log (msg : string) : js unit := emit (Log msg).

Definition console_error (msg : string) (e : exn) : js unit :=
  emit (LogError msg e).

(** [document.getElementById(id).value]; a missing element is [null]. *)
Definition get_value (id : string) : js string :=
  fun w =>
    match values w !! id with
    | Some v => (inr v, w)
    | None => (inl (TypeError id), w)
    end.

Definition set_value (id v : string) : js unit :=
  fun w =>
    match values w !! id with
    | Some _ =>
        (inr tt,
         mkWorld (<[id := v]> (values w)) (audio_files w) (options w)
           (tables w) (window_props w) (numberOfDocuments w) (trace w))
    | None => (inl (TypeError id), w)
    end.

(** [document.getElementById('audio').files] and the script's counter. *)
Definition get_files : js (list file) := fun w => (inr (audio_files w), w).

Definition get_numberOfDocuments : js Z :=
  fun w => (inr (numberOfDocuments w), w).

Definition get_options (id : string) : js (list string) :=
  fun w =>
    match options w !! id with
    | Some l => (inr l, w)
    | None => (inl (TypeError id), w)
    end.

Definition set_options (id : string) (l : list string) : js unit :=
  fun w =>
    (inr tt,
     mkWorld (values w) (audio_files w) (<[id := l]> (options w)) (tables w)
       (window_props w) (numberOfDocuments w) (trace w)).

(** Reading an identifier that neither the function nor the script binds:
    it is looked up on the global object and raises when absent. *)
Definition global_ref (ident : string) : js string :=
  fun w =>
    match window_props w !! ident with
    | Some v => (inr v, w)
    | None => (inl (ReferenceError ident), w)
    end.

Fixpoint for_of {A} (l : list A) (body : A -> js unit) : js unit :=
  match l with
  | [] => ret tt
  | x :: r => body x ;;; for_of r body
  end.

(** *** Helpers of the script *)

(** [resetFileInputFields] (lines 251-257): clearing the [value] of the
    file input empties its file list. *)
Definition resetFileInputFields : js unit :=
  (fun w =>
     (inr tt,
      mkWorld (values w) [] (options w) (tables w) (window_props w)
        (numberOfDocuments w) (trace w)))
  ;;; set_value "filenameUpload" EmptyString.

Definition set_table (id : string) (rows : list (list (option string)))
  : js unit :=
  fun w =>
    match tables w !! id with
    | Some _ =>
        (inr tt,
         mkWorld (values w) (audio_files w) (options w)
           (<[id := rows]> (tables w)) (window_props w)
           (numberOfDocuments w) (trace w))
    | None => (inl (TypeError id), w)
    end.

(** [fillTable] (lines 262-278): the body is emptied, then one row per
    item with one cell per column; [data] is [None] when the answer has no
    [result] member. *)
Definition fillTable (tableId : string) (data : option (list item))
    (columns : list string) : js unit :=
  set_table tableId [] ;;;
  console_log "data:" ;;;
  match data with
  | Some rows =>
      set_table tableId
        (map (fun it => map (fun column => item_get column it) columns) rows)
  | None => throw (TypeError "data.forEach")
  end.

(** Index of the first option whose value is [valeur], scanning from
    index [i]: the loop of [deleteOptionByValue]. *)
Fixpoint first_match (valeur : string) (opts : list string) (i : nat)
  : option nat :=
  match opts with
  | [] => None
  | o :: r => if String.eqb o valeur then Some i else first_match valeur r (S i)
  end.

(** [deleteOptionByValue] (lines 296-308). Both messages interpolate the
    identifier [value]; the parameter is named [valeur]. *)
Definition deleteOptionByValue (listId valeur : string) : js unit :=
  opts <~ get_options listId ;;
  match first_match valeur opts 0 with
  | Some i =>
      set_options listId (delete i opts) ;;;
      value <~ global_ref "value" ;;
      console_log ("Option with value " ++ dquote ++ value ++ dquote ++ " deleted.")%string
  | None =>
      value <~ global_ref "value" ;;
      console_log ("Option with value " ++ dquote ++ value ++ dquote ++ " not found.")%string
  end.

(** [cleanData] (lines 313-321). *)
Definition cleanData (valeur : string) : js unit :=
  try_catch
    (for_of listIds (fun listId => deleteOptionByValue listId valeur))
    (fun error => console_error "Error during refresh after deletion:" error).

(** *** Submit handlers *)

Section Handlers.

(** The far end of [fetch]: for a URL and a payload, an answer, or the
    exception raised by [fetch] or by [response.json()]. *)
Variable server : string -> list (string * jsval) -> exn + response.

Definition fetch (method url : string) (payload : list (string * jsval))
  : js response :=
  emit (Fetch method url payload) ;;;
  match server url payload with
  | inr r => ret r
  | inl e => throw e
  end.

(** [if (!response.ok) throw new Error(result.details || fallback)]. *)
Definition check_ok (r : response) (fallback : string) : js unit :=
  if ok r then ret tt
  else throw (Error (match details r with
                     | Some d => if falsy d then fallback else d
                     | None => fallback
                     end)).

(** Upload form (lines 327-395). *)
Definition uploadForm_submit : js unit :=
  files <~ get_files ;;
  nbSpeakers <~ get_value "nbSpeakers" ;;
  if falsy nbSpeakers then console_log "Please select a number of speakers."
  else
    match files with
    | [] => console_log "Please select a file."
    | audioFile :: _ =>
        let contentType := file_type audioFile in
        let mimeOk :=
          String.eqb contentType "audio/wav"
          || String.eqb contentType "audio/x-wav" in
        let extensionOk :=
          endsWith (toLowerCase (file_name audioFile)) ".wav" in
        if negb mimeOk || negb extensionOk then
          console_log "The file must be a WAV file (.wav)." ;;;
          resetFileInputFields
        else
          raw <~ get_value "filenameUpload" ;;
          let filename := trim raw in
          if falsy filename then console_log "Please enter a filename."
          else
            storageType <~ get_value "storageType" ;;
            if falsy storageType then console_log "Please select a storage type."
            else
              n <~ get_numberOfDocuments ;;
              let fileId := ("file-" ++ pretty (n + 1))%string in
              try_catch
                (r <~ fetch "POST" "/upload"
                        [ ("file", VFile audioFile);
                          ("filename", VStr filename);
                          ("storage_type", VStr storageType);
                          ("file_id", VStr fileId);
                          ("content_type", VStr contentType);
                          ("nb_speakers", VStr nbSpeakers) ] ;;
                 check_ok r "Error during upload" ;;;
                 emit RefreshData ;;;
                 console_log "Success:")
                (fun error => console_error "Error:" error) ;;;
              resetFileInputFields
    end.

(** Deletion form (lines 531-559). *)
Definition deletionForm_submit : js unit :=
  filename <~ get_value "filenameDeletion" ;;
  if falsy filename then console_log "Please enter a filename."
  else
    try_catch
      (r <~ fetch "POST" "/delete" [("filename", VStr filename)] ;;
       check_ok r "Error during deletion request" ;;;
       cleanData filename ;;;
       console_log "Success:")
      (fun error => console_error "Error:" error).

(** Mean-score form (lines 564-609). *)
Definition selectMeanForm_submit : js unit :=
  lo <~ get_value "humanBorneInfSlider" ;;
  hi <~ get_value "humanBorneSupSlider" ;;
  let minValueHuman := parseInt lo in
  let maxValueHuman := parseInt hi in
  if ge minValueHuman maxValueHuman then
    console_log "The lower human score bound must be less than the upper bound."
  else
    lo' <~ get_value "sampleLevelBorneInfSlider" ;;
    hi' <~ get_value "sampleLevelBorneSupSlider" ;;
    let minValueSample := parseInt lo' in
    let maxValueSample := parseInt hi' in
    if ge minValueSample maxValueSample then
      console_log "The lower sample score bound must be less than the upper bound."
    else
      try_catch
        (r <~ fetch "GET" "/get_filenames_by_mean_scores"
                [ ("human_score_min", VNum minValueHuman);
                  ("human_score_max", VNum maxValueHuman);
                  ("sample_score_min", VNum minValueSample);
                  ("sample_score_max", VNum maxValueSample) ] ;;
         check_ok r "Error during filenames request" ;;;
         console_log "Success:" ;;;
         fillTable "tabMeanThreshold" (result r)
           ["filename"; "human_score"; "system_score"])
        (fun error => console_error "Error:" error).

(** The two per-file forms differ only in their element ids, message,
    route, table and columns. *)
Definition window_form (infSlider supSlider message fileInput route table : string)
    (columns : list string) : js unit :=
  lo <~ get_value infSlider ;;
  hi <~ get_value supSlider ;;
  let minValue := parseInt lo in
  let maxValue := parseInt hi in
  if ge minValue maxValue then console_log message
  else
    raw <~ get_value fileInput ;;
    let filename := trim raw in
    if falsy filename then console_log "Please choose a file."
    else
      try_catch
        (r <~ fetch "GET" route
                [ ("min_score", VNum minValue);
                  ("max_score", VNum maxValue);
                  ("filename", VStr filename) ] ;;
         check_ok r "Error during filenames request" ;;;
         console_log "Success:" ;;;
         fillTable table (result r) columns)
        (fun error => console_error "Error:" error).

(** Sample-level form (lines 614-658). *)
Definition selectSampleLevelForm_submit : js unit :=
  window_form "frameBorneInfSlider" "frameBorneSupSlider"
    "The lower frame score bound must be less than the upper bound."
    "filenameSample" "/get_sample_level_confidences_by_filename"
    "tabSampleThreshold" ["confidence"; "start"; "end"].

(** Turn-level form (lines 663-708). *)
Definition selectTurnLevelForm_submit : js unit :=
  window_form "turnBorneInfSlider" "turnBorneSupSlider"
    "The lower turn score bound must be less than the upper bound."
    "filenameTurn" "/get_turn_level_confidences_by_filename"
    "tabTurnThreshold" ["start"; "end"; "speaker"; "speaker_confidence"].

End Handlers.

(** The requests recorded in a trace. *)
Definition is_fetch (e : event) : bool :=
  match e with Fetch _ _ _ => true | _ => false end.

Definition requests (t : list event) : list event := List.filter is_fetch t.

(** The three range-query forms. *)
Inductive range_form := MeanForm | SampleLevelForm | TurnLevelForm.

Definition submit (server : string -> list (string * jsval) -> exn + response)
    (f : range_form) : js unit :=
  match f with
  | MeanForm => selectMeanForm_submit server
  | SampleLevelForm => selectSampleLevelForm_submit server
  | TurnLevelForm => selectTurnLevelForm_submit server
  end.

(** The number that a handler reads from a slider. *)
Definition bound (w : world) (id : string) : number :=
  match values w !! id with
  | Some s => parseInt s
  | None => NaN
  end.

(** Some lower bound of the form is greater than or equal to its upper
    bound. *)
Definition lower_reaches_upper (f : range_form) (w : world) : bool :=
  match f with
  | MeanForm =>
      ge (bound w "humanBorneInfSlider") (bound w "humanBorneSupSlider")
      || ge (bound w "sampleLevelBorneInfSlider") (bound w "sampleLevelBorneSupSlider")
  | SampleLevelForm =>
      ge (bound w "frameBorneInfSlider") (bound w "frameBorneSupSlider")
  | TurnLevelForm =>
      ge (bound w "turnBorneInfSlider") (bound w "turnBorneSupSlider")
  end.

(** The file is a WAV file by name and by MIME type. *)
Definition is_wav (f : file) : bool :=
  (String.eqb (file_type f) "audio/wav" || String.eqb (file_type f) "audio/x-wav")
  && endsWith (toLowerCase (file_name f)) ".wav".

(** *** Sample pages *)

Definition answer_ok : string -> list (string * jsval) -> exn + response :=
  fun _ _ => inr {| ok := true; details := None; result := Some [] |}.

Definition sample_options : gmap string (list string) :=
  list_to_map (map (fun id => (id, [EmptyString; "a.wav"; "b.wav"])) listIds).

(** A page on which [a.wav] is selected for deletion; every dropdown
    lists the placeholder, [a.wav] and [b.wav]; no global named [value]
    exists. *)
Definition deletion_page : world :=
  {| values := {[ "filenameDeletion" := "a.wav" ]};
     audio_files := [];
     options := sample_options;
     tables := ∅;
     window_props := ∅;
     numberOfDocuments := 2;
     trace := [] |}.

Definition sliders (lo hi lo' hi' : string) : gmap string string :=
  list_to_map
    [ ("humanBorneInfSlider", lo); ("humanBorneSupSlider", hi);
      ("sampleLevelBorneInfSlider", lo'); ("sampleLevelBorneSupSlider", hi');
      ("frameBorneInfSlider", lo); ("frameBorneSupSlider", hi);
      ("turnBorneInfSlider", lo); ("turnBorneSupSlider", hi);
      ("filenameSample", "a.wav"); ("filenameTurn", "a.wav") ].

Definition query_page (lo hi lo' hi' : string) : world :=
  {| values := sliders lo hi lo' hi';
     audio_files := [];
     options := sample_options;
     tables := list_to_map [ ("tabMeanThreshold", []); ("tabSampleThreshold", []);
                             ("tabTurnThreshold", []) ];
     window_props := ∅;
     numberOfDocuments := 2;
     trace := [] |}.

Definition upload_page (nbSpeakers : string) (f : file) : world :=
  {| values := list_to_map [ ("nbSpeakers", nbSpeakers); ("filenameUpload", "song");
                             ("storageType", "PyAnnote") ];
     audio_files := [f];
     options := sample_options;
     tables := ∅;
     window_props := ∅;
     numberOfDocuments := 2;
     trace := [] |}.

Definition mp3_file : file :=
  {| file_name := "song.mp3"; file_type := "audio/mpeg" |}.

Definition wav_file : file :=
  {| file_name := "Song.WAV"; file_type := "audio/wav" |}.

End UI.

(* ===================================================================== *)
(** ** The confidence query engine *)
(* ===================================================================== *)

Module Query.

(** Modelled from the spec: the gateway's record store and its three
    range queries are missing from the sources. A segment of
    [diarizationSegments] (section 3): times in seconds, a speaker label
    and a bag of scalar sub-scores. *)
Record DiarizationSegment := {
  seg_start : Q;
  seg_end : Q;
  speaker : string;
  confidence : list (string * Q)
}.

(** Modelled from the spec: the gateway's data model is missing; the
    [sampleLevelConfidences] structure of section 3. *)
Record SampleLevelConfidences := {
  scores : list Z;
  resolution : Q
}.

(** Modelled from the spec: the gateway's data model is missing;
    [storageKind] has a single provider value. *)
Inductive StorageKind := PyAnnote.

(** Modelled from the spec: the gateway's data model is missing; one
    record per recording (section 3), the [filename] being the key under
    which the store holds it. *)
Record DiarizedFileRecord := {
  storageReference : string;
  storageKind : StorageKind;
  speakerCount : Z;
  jobReference : option string;
  humanScore : option Z;
  sampleLevelMeanScore : option Q;
  sampleLevelConfidences : option SampleLevelConfidences;
  diarizationSegments : option (list DiarizationSegment)
}.

(** Modelled from the spec: the gateway's store is missing; [filename]
    is unique across records and is their only handle, so the store is a
    finite map from filenames. *)
Abbreviation store := (gmap string DiarizedFileRecord).

(** Modelled from the spec: the gateway's failures are missing;
    [NotFound] for an unknown filename, and a record that lacks the
    queried field is not queryable by that operation. *)
Inductive query_error := NotFound | NotQueryable.

(** Modelled from the spec: the gateway's range test is missing; both
    ends of a range are inclusive. *)
Definition in_range (lo hi x : Q) : bool := Qle_bool lo x && Qle_bool x hi.

(** Modelled from the spec: the gateway's deletion is missing; deleting
    a record removes it from the store. *)
Definition deleteRecord (filename : string) (st : store) : store :=
  delete filename st.

(** *** Mean-score range query *)

(** Modelled from the spec: the gateway's result projection is missing;
    [{filename, humanScore, sampleLevelMeanScore}] per match. *)
Record MeanRow := {
  row_filename : string;
  row_humanScore : Z;
  row_sampleLevelMeanScore : Q
}.

(** Modelled from the spec: the gateway's mean-score filter is missing;
    a record matches when its [humanScore] lies in [[h0,h1]] and its
    [sampleLevelMeanScore] in [[s0,s1]]. *)
Definition mean_row (h0 h1 s0 s1 : Q) (entry : string * DiarizedFileRecord)
  : option MeanRow :=
  match humanScore entry.2, sampleLevelMeanScore entry.2 with
  | Some h, Some s =>
      if in_range h0 h1 (inject_Z h) && in_range s0 s1 s
      then Some {| row_filename := entry.1;
                   row_humanScore := h;
                   row_sampleLevelMeanScore := s |}
      else None
  | _, _ => None
  end.

(** Modelled from the spec: the gateway's mean-score range query is
    missing; the rows of the records that match. *)
Definition meanScoreQuery (st : store) (h0 h1 s0 s1 : Q) : list MeanRow :=
  omap (mean_row h0 h1 s0 s1) (map_to_list st).

(** *** Sample-level confidence window query *)

(** Modelled from the spec: the gateway's result entry is missing;
    [{confidence, start, end}]. *)
Record SampleEntry := {
  sample_confidence : Z;
  sample_start : Q;
  sample_end : Q
}.

(** Modelled from the spec: the gateway's scan of the scores is missing;
    the scores are read in index order from index [i], and a retained
    sample at index [i] spans [[i * resolution, (i+1) * resolution]]. *)
Fixpoint window_from (i : nat) (ss : list Z) (r lo hi : Q) : list SampleEntry :=
  match ss with
  | [] => []
  | v :: rest =>
      let tail := window_from (S i) rest r lo hi in
      if in_range lo hi (inject_Z v)
      then {| sample_confidence := v;
              sample_start := (inject_Z (Z.of_nat i) * r)%Q;
              sample_end := (inject_Z (Z.of_nat i + 1) * r)%Q |} :: tail
      else tail
  end.

(** The indices, from [i] on, of the scores that lie in the range. *)
Fixpoint kept_indices (i : nat) (ss : list Z) (lo hi : Q) : list nat :=
  match ss with
  | [] => []
  | v :: rest =>
      if in_range lo hi (inject_Z v)
      then i :: kept_indices (S i) rest lo hi
      else kept_indices (S i) rest lo hi
  end.

(** Two entries that agree up to the representation of their times. *)
Definition same_entry (a b : SampleEntry) : Prop :=
  sample_confidence a = sample_confidence b
  /\ (sample_start a == sample_start b)%Q
  /\ (sample_end a == sample_end b)%Q.

(** Modelled from the spec: the gateway's sample-level window query is
    missing; the record is resolved by filename ([NotFound] when absent),
    and a record without sample-level confidences is not queryable. *)
Definition sampleWindowQuery (st : store) (filename : string) (lo hi : Q)
  : query_error + list SampleEntry :=
  match st !! filename with
  | None => inl NotFound
  | Some rec =>
      match sampleLevelConfidences rec with
      | None => inl NotQueryable
      | Some c => inr (window_from 0 (scores c) (resolution c) lo hi)
      end
  end.

(** *** Turn-level confidence window query *)

(** Modelled from the spec: the gateway's result row is missing;
    [{start, end, speaker, speakerConfidence}]. *)
Record TurnRow := {
  turn_start : Q;
  turn_end : Q;
  turn_speaker : string;
  speakerConfidence : Q
}.

Section TurnLevel.

(** Modelled from the spec: the gateway's reading of the confidence
    payload is missing; the payload is a bag of scalar sub-scores and the
    specification does not name the one that the query reads, so it is a
    parameter. *)
Variable sub_score : DiarizationSegment -> option Q.

(** Modelled from the spec: the gateway's turn-level filter is missing;
    a segment is retained when its sub-score lies in the range. *)
Definition retained (lo hi : Q) (seg : DiarizationSegment) : bool :=
  match sub_score seg with
  | Some c => in_range lo hi c
  | None => false
  end.

(** Modelled from the spec: the gateway's projection of a retained
    segment is missing. *)
Definition turn_row (lo hi : Q) (seg : DiarizationSegment) : option TurnRow :=
  match sub_score seg with
  | Some c =>
      if in_range lo hi c
      then Some {| turn_start := seg_start seg;
                   turn_end := seg_end seg;
                   turn_speaker := speaker seg;
                   speakerConfidence := c |}
      else None
  | None => None
  end.

(** Modelled from the spec: the gateway's turn-level window query is
    missing; the segments are filtered in stored order. *)
Definition turnWindowQuery (st : store) (filename : string) (lo hi : Q)
  : query_error + list TurnRow :=
  match st !! filename with
  | None => inl NotFound
  | Some rec =>
      match diarizationSegments rec with
      | None => inl NotQueryable
      | Some segs => inr (omap (turn_row lo hi) segs)
      end
  end.

End TurnLevel.

(** *** Sample data *)

Definition sample_segments : list DiarizationSegment :=
  [ {| seg_start := 0; seg_end := 2; speaker := "SPEAKER_00";
       confidence := [("SPEAKER_00", 95%Q); ("SPEAKER_01", 5%Q)] |};
    {| seg_start := 2; seg_end := 3; speaker := "SPEAKER_01";
       confidence := [("SPEAKER_00", 45%Q); ("SPEAKER_01", 55%Q)] |};
    {| seg_start := 3; seg_end := 7; speaker := "SPEAKER_00";
       confidence := [("SPEAKER_00", 60%Q); ("SPEAKER_01", 40%Q)] |} ].

Definition sample_record : DiarizedFileRecord :=
  {| storageReference := "file-1"; storageKind := PyAnnote; speakerCount := 2;
     jobReference := None; humanScore := Some 70;
     sampleLevelMeanScore := Some 50%Q;
     sampleLevelConfidences :=
       Some {| scores := [10; 90; 50]; resolution := (1 # 2)%Q |};
     diarizationSegments := Some sample_segments |}.

(** One reading of the sub-score: the payload entry under the segment's
    own speaker label. *)
Definition own_speaker_score (seg : DiarizationSegment) : option Q :=
  snd <$> List.find (fun kv => String.eqb (fst kv) (speaker seg)) (confidence seg).

End Query.

(* ===================================================================== *)
(** ** The rest of the dashboard script, and runs of inserts *)
(* ===================================================================== *)

Module Script.
Import Schema Store UI.
Local Open Scope js_scope.

(** *** Runs of inserts on the collection *)

(** Documents offered to the collection one after the other; a rejected
    write leaves the collection as it was. *)
Fixpoint insert_all (coll : collection) (ds : list document) : collection :=
  match ds with
  | [] => coll
  | d :: rest =>
      match insertOne coll d with
      | inr coll' => insert_all coll' rest
      | inl _ => insert_all coll rest
      end
  end.

(** The property names of the collection validator. *)
Definition property_names : list string := map fst (properties file_infos).

(** *** The file picker (lines 129-135) *)

(** A character that [[^/.]] accepts. *)
Definition ext_char (c : ascii) : bool :=
  negb ((code c =? 47) || (code c =? 46)).

Fixpoint all_ext_chars (s : string) : bool :=
  match s with
  | EmptyString => true
  | String c r => ext_char c && all_ext_chars r
  end.

(** [s] matches [\.[^/.]+$] from its first character on. *)
Definition extension_at (s : string) : bool :=
  match s with
  | String c (String c' r) => (code c =? 46) && all_ext_chars (String c' r)
  | _ => false
  end.

(** [name.replace(/\.[^/.]+$/, EmptyString)]: the leftmost match is cut. *)
Fixpoint strip_extension (s : string) : string :=
  match s with
  | EmptyString => EmptyString
  | String c r =>
      if extension_at s then EmptyString else String c (strip_extension r)
  end.

(** The [change] listener of the [audio] input. *)
Definition audio_change : js unit :=
  files <~ get_files ;;
  match files with
  | file :: _ => set_value "filenameUpload" (strip_extension (file_name file))
  | [] => ret tt
  end.

(** *** Two more forms *)

Section Forms.

Variable server : string -> list (string * jsval) -> exn + response.

(** Diarization request form (lines 400-426). *)
Definition diarisationForm_submit : js unit :=
  filename <~ get_value "filenameDiarisation" ;;
  if falsy filename then console_log "Please enter a filename."
  else
    try_catch
      (r <~ fetch server "POST" "/diarise" [("filename", VStr filename)] ;;
       check_ok r "Error during diarization request" ;;;
       console_log "Success:")
      (fun error => console_error "Error:" error).

(** User score form (lines 491-526); the score travels as the text of
    the input. *)
Definition integerForm_submit : js unit :=
  filename <~ get_value "filenameLists" ;;
  if falsy filename then console_log "Please enter a filename."
  else
    integer <~ get_value "integerInput" ;;
    if falsy integer then console_log "Please select a score."
    else
      try_catch
        (r <~ fetch server "POST" "/update_human_score"
                [("filename", VStr filename); ("human_score", VStr integer)] ;;
         check_ok r "Error during score update request" ;;;
         console_log "Success:")
        (fun error => console_error "Error:" error).

End Forms.

Definition set_numberOfDocuments (n : Z) : js unit :=
  fun w =>
    (inr tt,
     mkWorld (values w) (audio_files w) (options w) (tables w)
       (window_props w) n (trace w)).

Local Close Scope js_scope.

(** *** The script's remaining state *)

(** The page together with what the claims' model leaves out:
    - [registeredFilenames]: the script's list of known filenames;
    - [texts]: the [textContent] (or [innerHTML]) of the elements that the
      script writes text into, by id. *)
Record script := mkScript {
  page : world;
  registeredFilenames : list string;
  texts : gmap string string
}.

Definition jsx (A : Type) : Type := script -> (exn + A) * script.

Definition xret {A} (a : A) : jsx A := fun s => (inr a, s).

Definition xthrow {A} (e : exn) : jsx A := fun s => (inl e, s).

Definition xbind {A B} (m : jsx A) (k : A -> jsx B) : jsx B :=
  fun s =>
    match m s with
    | (inr a, s') => k a s'
    | (inl e, s') => (inl e, s')
    end.

Definition xtry {A} (m : jsx A) (handler : exn -> jsx A) : jsx A :=
  fun s =>
    match m s with
    | (inl e, s') => handler e s'
    | r => r
    end.

(** A computation on the page, run inside the script. *)
Definition lift {A} (m : js A) : jsx A :=
  fun s =>
    let '(r, w) := m (page s) in
    (r, mkScript w (registeredFilenames s) (texts s)).

(** A call to an [async] function that is not awaited: what it raises
    becomes a rejected promise that nobody observes. *)
Definition spawn (m : jsx unit) : jsx unit := xtry m (fun _ => xret tt).

Declare Scope jsx_scope.
Delimit Scope jsx_scope with jsx.
Notation "x <~ m ;; k" := (xbind m (fun x => k))
  (at level 90, m at next level, right associativity) : jsx_scope.
Notation "m ;;; k" := (xbind m (fun _ => k))
  (at level 90, right associativity) : jsx_scope.
Local Open Scope jsx_scope.

Fixpoint xfor_of {A} (l : list A) (body : A -> jsx unit) : jsx unit :=
  match l with
  | [] => xret tt
  | x :: r => body x ;;; xfor_of r body
  end.

Definition get_registered : jsx (list string) :=
  fun s => (inr (registeredFilenames s), s).

Definition set_registered (l : list string) : jsx unit :=
  fun s => (inr tt, mkScript (page s) l (texts s)).

(** [document.getElementById(id).textContent = v]. *)
Definition set_text (id v : string) : jsx unit :=
  fun s =>
    match texts s !! id with
    | Some _ => (inr tt, mkScript (page s) (registeredFilenames s) (<[id := v]> (texts s)))
    | None => (inl (TypeError id), s)
    end.

(** One line of [refreshSlidersDisplay], also the body of each slider's
    [input] listener (lines 94-124). *)
Definition show_slider (display slider : string) : jsx unit :=
  v <~ lift (get_value slider) ;;
  set_text display v.

(** [refreshSlidersDisplay] (lines 211-227). *)
Definition refreshSlidersDisplay : jsx unit :=
  show_slider "humanBorneInfDisplay" "humanBorneInfSlider" ;;;
  show_slider "humanBorneSupDisplay" "humanBorneSupSlider" ;;;
  show_slider "sampleLevelBorneInfDisplay" "sampleLevelBorneInfSlider" ;;;
  show_slider "sampleLevelBorneSupDisplay" "sampleLevelBorneSupSlider" ;;;
  show_slider "frameBorneInfDisplay" "frameBorneInfSlider" ;;;
  show_slider "frameBorneSupDisplay" "frameBorneSupSlider" ;;;
  show_slider "turnBorneInfDisplay" "turnBorneInfSlider" ;;;
  show_slider "turnBorneSupDisplay" "turnBorneSupSlider".

(** The filenames that [updateFilenamesFields] appends: those that no
    option after the first carries. *)
Definition newOptionsToAdd (opts registered : list string) : list string :=
  List.filter (fun f => negb (existsb (String.eqb f) (tail opts))) registered.

(** [updateFilenamesFields] (lines 185-206). *)
Definition updateFilenamesFields (listId : string) : jsx unit :=
  registered <~ get_registered ;;
  opts <~ lift (get_options listId) ;;
  lift (set_options listId (opts ++ newOptionsToAdd opts registered)).

(** The JSON body of the two informational routes, of the shape the
    gateway gives it. *)
Record info := {
  info_ok : bool;
  info_details : option string;
  nb_of_docs : Z;
  filenames : list string
}.

(** [if (!response.ok) throw new Error(result.details || fallback)]. *)
Definition check_info (r : info) (fallback : string) : jsx unit :=
  if info_ok r then xret tt
  else xthrow (Error (match info_details r with
                      | Some d => if falsy d then fallback else d
                      | None => fallback
                      end)).

Definition settle {A} (a : exn + A) : jsx A :=
  match a with
  | inr r => xret r
  | inl e => xthrow e
  end.

(** [getNumberOfDocuments] (lines 141-158), in two parts: the request,
    and what runs once the answer [a] is there. *)
Definition getNumberOfDocuments_request : jsx unit :=
  lift (emit (Fetch "GET" "/get_number_of_documents" [])).

Definition getNumberOfDocuments_answer (a : exn + info) : jsx unit :=
  xtry
    (result <~ settle a ;;
     check_info result "Error while requesting the number of documents" ;;;
     lift (console_log "Success:") ;;;
     lift (set_numberOfDocuments (nb_of_docs result)))
    (fun error => lift (console_error "Error:" error)).

(** [getAllFilenames] (lines 163-180), likewise. *)
Definition getAllFilenames_request : jsx unit :=
  lift (emit (Fetch "GET" "/get_all_filenames" [])).

Definition getAllFilenames_answer (a : exn + info) : jsx unit :=
  xtry
    (result <~ settle a ;;
     check_info result "Error while requesting filenames" ;;;
     lift (console_log "Success:") ;;;
     set_registered (filenames result))
    (fun error => lift (console_error "Error:" error)).

Section Refresh.

(** The answers of the two informational routes. *)
Variable docs_answer names_answer : exn + info.

Definition getNumberOfDocuments : jsx unit :=
  getNumberOfDocuments_request ;;; getNumberOfDocuments_answer docs_answer.

Definition getAllFilenames : jsx unit :=
  getAllFilenames_request ;;; getAllFilenames_answer names_answer.

(** The two answers, handled in the order in which they arrive. *)
Definition answers (docs_first : bool) : jsx unit :=
  if docs_first
  then getNumberOfDocuments_answer docs_answer ;;; getAllFilenames_answer names_answer
  else getAllFilenames_answer names_answer ;;; getNumberOfDocuments_answer docs_answer.

(** [refreshData] (lines 232-246), run until nothing is pending. Both
    requests leave before the displays are refreshed; when the displays
    raise, [Promise.all] rejects at once and the answers are handled
    after the error is logged, the dropdowns staying as they are. *)
Definition refreshData (docs_first : bool) : jsx unit :=
  getNumberOfDocuments_request ;;;
  getAllFilenames_request ;;;
  xtry
    (refreshSlidersDisplay ;;;
     answers docs_first ;;;
     xfor_of listIds (fun listId => spawn (updateFilenamesFields listId)))
    (fun error =>
       lift (console_error "Error during initialization:" error) ;;;
       answers docs_first).

End Refresh.

(** *** The diagram form (lines 431-455) *)

Record plot := { plot_ok : bool; plot_status : Z; plot_text : string }.

Definition not_diarized (filename : string) : string :=
  ("<p style=" ++ dquote ++ "color: red;" ++ dquote ++ ">The file " ++ filename
   ++ " has not been diarized yet! Please proceed with diarization first.</p>")%string.

Definition svgForm_submit (plot_answer : string -> exn + plot) : jsx unit :=
  filename <~ lift (get_value "filenameSVG") ;;
  if falsy filename then lift (console_log "Veuillez entrer un nom de fichier.")
  else
    lift (emit (Fetch "GET" "/plot" [("filename", VStr filename)])) ;;;
    xtry
      (response <~ settle (plot_answer filename) ;;
       if plot_ok response then set_text "plot-container" (plot_text response)
       else xthrow (Error ("HTTP error: " ++ pretty (plot_status response))%string))
      (fun error =>
         lift (console_error "Error retrieving SVG:" error) ;;;
         set_text "plot-container" (not_diarized filename)).

(** A computation that reads only the values of the page and the texts,
    and writes only the texts. *)
Definition display_only (m : jsx unit) : Prop :=
  forall s, exists r t',
    forall s2, values (page s2) = values (page s) -> texts s2 = texts s ->
      m s2 = (r, mkScript (page s2) (registeredFilenames s2) t').

(** *** Sample data *)

Definition sample_script (registered : list string) : script :=
  {| page := query_page "10" "90" "50" "60";
     registeredFilenames := registered;
     texts := list_to_map
       (map (fun id => (id, EmptyString))
          [ "humanBorneInfDisplay"; "humanBorneSupDisplay";
            "sampleLevelBorneInfDisplay"; "sampleLevelBorneSupDisplay";
            "frameBorneInfDisplay"; "frameBorneSupDisplay";
            "turnBorneInfDisplay"; "turnBorneSupDisplay"; "plot-container" ]) |}.

(** A server that answers every request ok, with the given [result]. *)
Definition answer_with (rows : option (list item))
  : string -> list (string * jsval) -> exn + response :=
  fun _ _ => inr {| ok := true; details := None; result := rows |}.

(** A server that cannot be reached. *)
Definition offline : string -> list (string * jsval) -> exn + response :=
  fun _ _ => inl (Error "offline").

Definition info_ok_answer : exn + info :=
  inr {| info_ok := true; info_details := None; nb_of_docs := 3;
         filenames := ["a.wav"; "b.wav"; "c.wav"] |}.

End Script.

(* ===================================================================== *)
(** ** Properties of the validator and of the collection *)
(* ===================================================================== *)

Import Schema Store Query UI Script.

(** Split a [Forall] over a list given by its elements. *)
Ltac split_Forall :=
  repeat match goal with
         | H : Forall _ (_ :: _) |- _ => inversion_clear H
         end;
  cbn [fst snd] in *.

Section SchemaFacts.

Lemma validate_object (s : schema) (d : document) :
  validate s (BObject d) =
  type_ok s (BObject d) && enum_ok s (BObject d)
  && forallb (fun k => has_field k d) (required s)
  && forallb (fun ks => check ks.1 ks.2 d) (properties s).
Proof.
  destruct s as [ty lo hi en req props it]; simpl.
  unfold minimum_ok, maximum_ok; simpl.
  destruct lo, hi; simpl; rewrite ?andb_true_r;
    repeat f_equal;
    (induction props as [|[k sk] ps IH]; simpl; [reflexivity|];
     unfold check at 1; simpl; rewrite IH; reflexivity).
Qed.

Lemma validate_array (s : schema) (l : list bson) :
  validate s (BArray l) =
  type_ok s (BArray l) && enum_ok s (BArray l)
  && match items s with
     | Some si => forallb (validate si) l
     | None => true
     end.
Proof.
  destruct s as [ty lo hi en req props it]; simpl.
  unfold minimum_ok, maximum_ok; simpl.
  destruct lo, hi, it; simpl; rewrite ?andb_true_r; reflexivity.
Qed.

Lemma get_field_remove (k k' : string) (d : document) :
  get_field k' (remove_field k d) =
  if String.eqb k' k then None else get_field k' d.
Proof.
  induction d as [|[k0 v0] d IH]; simpl.
  - destruct (String.eqb k' k); reflexivity.
  - destruct (String.eqb k k0) eqn:E0.
    + apply String.eqb_eq in E0; subst k0. rewrite IH.
      destruct (String.eqb k' k); reflexivity.
    + simpl. rewrite IH.
      destruct (String.eqb k' k0) eqn:E1; [|reflexivity].
      apply String.eqb_eq in E1; subst k0.
      rewrite String.eqb_sym, E0. reflexivity.
Qed.

Lemma get_field_set (k k' : string) (v : bson) (d : document) :
  get_field k' (set_field k v d) =
  if String.eqb k' k then Some v else get_field k' d.
Proof.
  unfold set_field; simpl. rewrite get_field_remove.
  destruct (String.eqb k' k); reflexivity.
Qed.

Lemma Qle_bool_inject (a b : Z) :
  Qle_bool (inject_Z a) (inject_Z b) = (a <=? b).
Proof. unfold Qle_bool; simpl. rewrite !Z.mul_1_r. reflexivity. Qed.

Lemma validate_int_between (lo hi : Z) (v : bson) :
  validate (int_between lo hi) v = true <->
  exists n, v = BInt n /\ lo <= n <= hi.
Proof.
  split.
  - destruct v; simpl; try discriminate.
    unfold minimum_ok, maximum_ok, enum_ok; simpl.
    rewrite !Qle_bool_inject, !andb_true_r.
    intros H. exists n. split; [reflexivity|]. lia.
  - intros (n & -> & Hn); simpl.
    unfold minimum_ok, maximum_ok, enum_ok; simpl.
    rewrite !Qle_bool_inject, !andb_true_r. lia.
Qed.

Lemma validate_double_from (lo : Q) (v : bson) :
  validate (double_from lo) v = true <->
  exists x, v = BDouble x /\ (lo <= x)%Q.
Proof.
  split.
  - destruct v; simpl; try discriminate.
    unfold minimum_ok, maximum_ok, enum_ok; simpl. rewrite !andb_true_r.
    intros H. exists x. split; [reflexivity|]. by apply Qle_bool_iff.
  - intros (x & -> & Hx); simpl.
    unfold minimum_ok, maximum_ok, enum_ok; simpl. rewrite !andb_true_r.
    by apply Qle_bool_iff.
Qed.

Lemma validate_typed_string (v : bson) :
  validate (typed TString) v = true <-> exists f, v = BString f.
Proof.
  split; [|intros [f ->]; reflexivity].
  destruct v; simpl; try discriminate. eauto.
Qed.

Lemma has_field_set (k k' : string) (v : bson) (d : document) :
  has_field k' (set_field k v d) =
  if String.eqb k' k then true else has_field k' d.
Proof.
  unfold has_field. rewrite get_field_set.
  destruct (String.eqb k' k); reflexivity.
Qed.

Lemma check_set (k k' : string) (s : schema) (v : bson) (d : document) :
  check k' s (set_field k v d) =
  if String.eqb k' k then validate s v else check k' s d.
Proof.
  unfold check. rewrite get_field_set.
  destruct (String.eqb k' k); reflexivity.
Qed.

Local Arguments validate : simpl never.
Local Arguments check : simpl never.
Local Arguments has_field : simpl never.

(** The validator of the collection, keyword by keyword. *)
Lemma validate_file_infos (d : document) :
  validate file_infos (BObject d) = true <->
  Forall (fun k => has_field k d = true) (required file_infos)
  /\ Forall (fun ks => check ks.1 ks.2 d = true) (properties file_infos).
Proof.
  rewrite validate_object. change (type_ok file_infos (BObject d)) with true.
  change (enum_ok file_infos (BObject d)) with true.
  rewrite andb_true_l, andb_true_iff, !forallb_forall, !List.Forall_forall.
  reflexivity.
Qed.

(** Documents that pass validation carry a string [filename]. *)
Lemma valid_filename (d : document) :
  validate file_infos (BObject d) = true ->
  exists f, get_field "filename" d = Some (BString f).
Proof.
  intros [Hreq Hprops]%validate_file_infos.
  cbn [required properties file_infos] in Hreq, Hprops.
  split_Forall. unfold has_field, check in *.
  destruct (get_field "filename" d) as [v|]; [|discriminate].
  match goal with
  | H : validate (typed TString) v = true |- _ =>
      apply validate_typed_string in H as [f ->]
  end.
  eauto.
Qed.

(** Changing [nb_speakers] leaves every other check of the validator as
    it was. *)
Lemma validate_set_nb_speakers (v : bson) (d : document) :
  validate file_infos (BObject d) = true ->
  validate file_infos (BObject (set_field "nb_speakers" v d)) =
  validate (int_between 1 100) v.
Proof.
  intros [Hreq Hprops]%validate_file_infos.
  rewrite validate_object.
  change (type_ok file_infos (BObject (set_field "nb_speakers" v d))) with true.
  change (enum_ok file_infos (BObject (set_field "nb_speakers" v d))) with true.
  cbn [required properties file_infos forallb fst snd andb] in *.
  split_Forall.
  rewrite !has_field_set, !check_set. simpl.
  repeat match goal with
         | E : ?b = true |- context [?b] => rewrite E
         end.
  simpl. rewrite ?andb_true_r. reflexivity.
Qed.

Lemma index_key_set_nb_speakers (v : bson) (d : document) :
  index_key (set_field "nb_speakers" v d) = index_key d.
Proof. unfold index_key. rewrite get_field_set. reflexivity. Qed.

Lemma insertOne_inr (coll coll' : collection) (d : document) :
  insertOne coll d = inr coll' ->
  validate file_infos (BObject d) = true /\ key_taken coll d = false
  /\ coll' = (coll ++ [d]).
Proof.
  unfold insertOne.
  destruct (validate file_infos (BObject d)); simpl; [|discriminate].
  destruct (key_taken coll d); [discriminate|].
  intros [= <-]. auto.
Qed.

(** C5. Whatever document the collection accepts, the same creation with
    [nb_speakers] set to an integer of [[1,100]] is accepted too and
    stored; with any other value for [nb_speakers] it is rejected with
    [ValidationError]; and a document without [nb_speakers] is rejected
    with [ValidationError]. *)
Theorem nb_speakers_range_decides_creation
    (coll coll' : collection) (d : document) :
  insertOne coll d = inr coll' ->
  (forall n, 1 <= n <= 100 ->
     insertOne coll (set_field "nb_speakers" (BInt n) d)
     = inr (coll ++ [set_field "nb_speakers" (BInt n) d]))
  /\ (forall v, (forall n, v = BInt n -> n < 1 \/ 100 < n) ->
        insertOne coll (set_field "nb_speakers" v d) = inl ValidationError)
  /\ (forall d', get_field "nb_speakers" d' = None ->
        insertOne coll d' = inl ValidationError).
Proof.
  intros (Hvalid & Hfree & _)%insertOne_inr. repeat split.
  - intros n Hn. unfold insertOne, key_taken in *.
    rewrite validate_set_nb_speakers by assumption.
    rewrite index_key_set_nb_speakers, Hfree.
    replace (validate (int_between 1 100) (BInt n)) with true; [reflexivity|].
    symmetry. apply validate_int_between. eauto.
  - intros v Hv. unfold insertOne.
    rewrite validate_set_nb_speakers by assumption.
    destruct (validate (int_between 1 100) v) eqn:E; [|reflexivity].
    apply validate_int_between in E as (n & -> & Hn).
    specialize (Hv n eq_refl). lia.
  - intros d' Hnone. unfold insertOne.
    destruct (validate file_infos (BObject d')) eqn:E; [|reflexivity].
    apply validate_file_infos in E as [Hreq _].
    cbn [required file_infos] in Hreq.
    split_Forall. unfold has_field in *. rewrite Hnone in *. discriminate.
Qed.

Lemma nb_speakers_range_decides_creation_witness :
  insertOne [] (created_doc "a.wav" 2) = inr [created_doc "a.wav" 2]
  /\ insertOne [] (set_field "nb_speakers" (BInt 100) (created_doc "a.wav" 2))
     = inr [set_field "nb_speakers" (BInt 100) (created_doc "a.wav" 2)]
  /\ insertOne [] (set_field "nb_speakers" (BInt 101) (created_doc "a.wav" 2))
     = inl ValidationError
  /\ insertOne [] (set_field "nb_speakers" (BDouble 5) (created_doc "a.wav" 2))
     = inl ValidationError
  /\ insertOne [] (remove_field "nb_speakers" (created_doc "a.wav" 2))
     = inl ValidationError.
Proof.
  assert (H0 : insertOne [] (created_doc "a.wav" 2) = inr [created_doc "a.wav" 2])
    by reflexivity.
  destruct (nb_speakers_range_decides_creation [] _ _ H0) as (Hin & Hout & Hnone).
  split; [exact H0|]. split; [apply (Hin 100); lia|].
  split; [apply (Hout (BInt 101)); intros n [= <-]; lia|].
  split; [apply (Hout (BDouble 5)); intros n [=]|].
  apply Hnone. reflexivity.
Defined.

Lemma bson_eqb_string (v : bson) (f : string) :
  bson_eqb v (BString f) = true <-> v = BString f.
Proof.
  split; [|intros ->; simpl; apply String.eqb_refl].
  destruct v; simpl; try discriminate.
  intros ->%String.eqb_eq. reflexivity.
Qed.

Lemma key_taken_spec (coll : collection) (d : document) (f : string) :
  get_field "filename" d = Some (BString f) ->
  key_taken coll d = true <-> In (BString f) (map index_key coll).
Proof.
  intros Hf. unfold key_taken. rewrite existsb_exists, in_map_iff.
  unfold index_key at 2. rewrite Hf.
  split; intros (d' & H1 & H2).
  - exists d'. split; [|assumption]. by apply bson_eqb_string.
  - exists d'. split; [assumption|]. by apply bson_eqb_string.
Qed.

Lemma insertOne_well_formed (coll coll' : collection) (d : document) :
  well_formed coll -> insertOne coll d = inr coll' -> well_formed coll'.
Proof.
  intros [Hall Hnd] (Hvalid & Hfree & ->)%insertOne_inr.
  destruct (valid_filename d Hvalid) as [f Hf].
  split.
  - apply List.Forall_app. split; [assumption|]. by constructor.
  - rewrite map_app. simpl.
    apply NoDup_app. repeat split.
    + assumption.
    + intros k Hk ->%list_elem_of_singleton.
      assert (key_taken coll d = true) as E; [|congruence].
      apply (key_taken_spec coll d f Hf).
      unfold index_key in Hk at 1. rewrite Hf in Hk. by apply list_elem_of_In.
    + apply NoDup_singleton.
Qed.

(** C6. When a creation has succeeded, a later creation of a valid
    document with the same [filename] fails with [DuplicateKey], also
    after further documents were stored in between; and the filenames
    stored in the collection stay pairwise distinct. *)
Theorem second_insert_same_filename_is_duplicate
    (coll coll1 later : collection) (d1 d2 : document) :
  insertOne coll d1 = inr coll1 ->
  validate file_infos (BObject d2) = true ->
  get_field "filename" d2 = get_field "filename" d1 ->
  insertOne (coll1 ++ later) d2 = inl DuplicateKey
  /\ (well_formed coll -> well_formed coll1).
Proof.
  intros H1 Hvalid2 Hsame.
  split; [|intros Hwf; by eapply insertOne_well_formed].
  apply insertOne_inr in H1 as (Hvalid1 & _ & ->).
  destruct (valid_filename d1 Hvalid1) as [f Hf].
  unfold insertOne. rewrite Hvalid2. simpl.
  replace (key_taken ((coll ++ [d1]) ++ later) d2) with true; [reflexivity|].
  symmetry. apply (key_taken_spec _ d2 f); [congruence|].
  rewrite !map_app, !in_app_iff. left. right. left.
  unfold index_key. rewrite Hf. reflexivity.
Qed.

Lemma second_insert_same_filename_is_duplicate_witness :
  insertOne [] (created_doc "a.wav" 2) = inr [created_doc "a.wav" 2]
  /\ insertOne ([created_doc "a.wav" 2] ++ [created_doc "b.wav" 3])
       (created_doc "a.wav" 7) = inl DuplicateKey
  /\ (well_formed [] -> well_formed [created_doc "a.wav" 2]).
Proof.
  split; [reflexivity|].
  apply (second_insert_same_filename_is_duplicate
           [] [created_doc "a.wav" 2] [created_doc "b.wav" 3]
           (created_doc "a.wav" 2) (created_doc "a.wav" 7));
    reflexivity.
Defined.

Lemma validate_segment (v : bson) :
  validate segment_schema v = true <->
  exists d, v = BObject d
    /\ Forall (fun k => has_field k d = true) (required segment_schema)
    /\ Forall (fun ks => check ks.1 ks.2 d = true) (properties segment_schema).
Proof.
  split.
  - destruct v; try discriminate. rewrite validate_object.
    rewrite !andb_true_iff, !forallb_forall, <- !List.Forall_forall.
    intros [[_ Hreq] Hprops]. eauto.
  - intros (d & -> & Hreq & Hprops). rewrite validate_object.
    rewrite !andb_true_iff, !forallb_forall, <- !List.Forall_forall. auto.
Qed.

(** C7. A segment whose [start] and [end] are both non-negative passes
    the validator of [diarization_result] items, with no condition
    relating [end] to [start]; and a document that the validator accepts
    is still accepted once such segments are stored in it. *)
Theorem segment_order_not_enforced
    (start end_ : Q) (speaker : string) (confidence : document) :
  (0 <= start)%Q -> (0 <= end_)%Q ->
  validate segment_schema (segment start end_ speaker confidence) = true
  /\ forall d, validate file_infos (BObject d) = true ->
       validate file_infos
         (BObject (set_field "diarization_result"
                     (BArray [segment start end_ speaker confidence]) d)) = true.
Proof.
  intros Hs He.
  assert (Hseg : validate segment_schema (segment start end_ speaker confidence) = true).
  { apply validate_segment. eexists. split; [reflexivity|].
    split; repeat constructor; cbn [fst snd].
    - apply validate_double_from. eauto.
    - apply validate_double_from. eauto. }
  split; [exact Hseg|].
  intros d [Hreq Hprops]%validate_file_infos.
  apply validate_file_infos.
  cbn [required properties file_infos] in *.
  split_Forall.
  split; repeat constructor; cbn [fst snd];
    rewrite ?has_field_set, ?check_set; simpl; try assumption.
  rewrite validate_array. simpl. rewrite Hseg. reflexivity.
Qed.

Lemma segment_order_not_enforced_witness :
  ((0 <= 5)%Q /\ (0 <= 2)%Q /\ (2 <= 5)%Q)
  /\ validate segment_schema (segment 5 2 "SPEAKER_00" []) = true
  /\ validate file_infos
       (BObject (set_field "diarization_result"
                   (BArray [segment 5 2 "SPEAKER_00" []])
                   (created_doc "a.wav" 2))) = true.
Proof.
  assert (H5 : (0 <= 5)%Q) by (unfold Qle; simpl; lia).
  assert (H2 : (0 <= 2)%Q) by (unfold Qle; simpl; lia).
  destruct (segment_order_not_enforced 5 2 "SPEAKER_00" [] H5 H2) as [Hseg Hdoc].
  split; [repeat split; try assumption; unfold Qle; simpl; lia|].
  split; [exact Hseg|]. apply Hdoc. reflexivity.
Defined.

(** C8, as stated, fails: a validated document may carry a resolution
    that is not strictly positive. *)
Lemma resolution_may_be_zero :
  ~ (forall (d fs : document) (r : Q),
       validate file_infos (BObject d) = true ->
       get_field "sample_level_confidences" d = Some (BObject fs) ->
       get_field "resolution" fs = Some (BDouble r) ->
       (0 < r)%Q).
Proof.
  intros H.
  specialize (H zero_resolution_doc
                [("score", BArray [BInt 40]); ("resolution", BDouble 0)] 0%Q
                eq_refl eq_refl eq_refl).
  revert H. unfold Qlt; simpl. lia.
Qed.

(** C8, amended. In a validated document that carries
    [sample_level_confidences], that field is an object whose
    [resolution] is a double greater than or equal to zero and whose
    [score] is an array of integers of [[0,100]]. *)
Theorem sample_level_confidences_shape (d : document) (slc : bson) :
  validate file_infos (BObject d) = true ->
  get_field "sample_level_confidences" d = Some slc ->
  exists (fs : document) (r : Q) (sc : list bson),
    slc = BObject fs
    /\ get_field "resolution" fs = Some (BDouble r) /\ (0 <= r)%Q
    /\ get_field "score" fs = Some (BArray sc)
    /\ Forall (fun v => exists n, v = BInt n /\ 0 <= n <= 100) sc.
Proof.
  intros [_ Hprops]%validate_file_infos Hslc.
  cbn [properties file_infos] in Hprops.
  split_Forall.
  match goal with
  | H : check "sample_level_confidences" _ d = true |- _ =>
      unfold check in H; rewrite Hslc in H; rename H into Hv
  end.
  destruct slc; try discriminate. rewrite validate_object in Hv.
  rewrite !andb_true_iff, !forallb_forall, <- !List.Forall_forall in Hv.
  destruct Hv as [[_ Hreq] Hp].
  cbn [required properties sample_level_confidences_schema] in Hreq, Hp.
  split_Forall. unfold has_field, check in *.
  destruct (get_field "score" fields) as [vs|] eqn:Escore; [|discriminate].
  destruct (get_field "resolution" fields) as [vr|] eqn:Eres; [|discriminate].
  match goal with
  | H : validate (double_from 0) vr = true |- _ =>
      apply validate_double_from in H as (r & -> & Hr)
  end.
  match goal with
  | H : validate _ vs = true |- _ => rename H into Hvs
  end.
  destruct vs; try discriminate. rewrite validate_array in Hvs. simpl in Hvs.
  exists fields, r, elems.
  split; [reflexivity|]. split; [exact Eres|]. split; [assumption|].
  split; [exact Escore|].
  apply List.Forall_forall. intros v Hin.
  apply validate_int_between.
  rewrite forallb_forall in Hvs. by apply Hvs.
Qed.

Lemma sample_level_confidences_shape_witness :
  exists (fs : document) (r : Q) (sc : list bson),
    BObject [("score", BArray [BInt 40]); ("resolution", BDouble 0)] = BObject fs
    /\ get_field "resolution" fs = Some (BDouble r) /\ (0 <= r)%Q
    /\ get_field "score" fs = Some (BArray sc)
    /\ Forall (fun v => exists n, v = BInt n /\ 0 <= n <= 100) sc.
Proof.
  apply (sample_level_confidences_shape zero_resolution_doc); reflexivity.
Defined.

End SchemaFacts.

(* ===================================================================== *)
(** ** Properties of the query engine *)
(* ===================================================================== *)

Section QueryFacts.

Lemma in_range_spec (lo hi x : Q) :
  in_range lo hi x = true <-> (lo <= x <= hi)%Q.
Proof.
  unfold in_range. rewrite andb_true_iff, !Qle_bool_iff. reflexivity.
Qed.

Lemma mean_row_Some (h0 h1 s0 s1 : Q) (entry : string * DiarizedFileRecord)
    (row : MeanRow) :
  mean_row h0 h1 s0 s1 entry = Some row <->
  row_filename row = entry.1
  /\ humanScore entry.2 = Some (row_humanScore row)
  /\ sampleLevelMeanScore entry.2 = Some (row_sampleLevelMeanScore row)
  /\ (h0 <= inject_Z (row_humanScore row) <= h1)%Q
  /\ (s0 <= row_sampleLevelMeanScore row <= s1)%Q.
Proof.
  unfold mean_row.
  destruct (humanScore entry.2) as [h|], (sampleLevelMeanScore entry.2) as [s|];
    try (split; [discriminate | intros (_ & ? & ? & _); discriminate]).
  destruct (in_range h0 h1 (inject_Z h)) eqn:Eh, (in_range s0 s1 s) eqn:Es; simpl.
  - apply in_range_spec in Eh, Es. split.
    + intros [= <-]. simpl. auto.
    + destruct row as [f h' s']; simpl.
      intros (-> & [= ->] & [= ->] & _). reflexivity.
  - split; [discriminate|]. intros (_ & _ & [= <-] & _ & Hs).
    apply in_range_spec in Hs. congruence.
  - split; [discriminate|]. intros (_ & [= <-] & _ & Hh & _).
    apply in_range_spec in Hh. congruence.
  - split; [discriminate|]. intros (_ & [= <-] & _ & Hh & _).
    apply in_range_spec in Hh. congruence.
Qed.

Lemma mean_rows_sublist (h0 h1 s0 s1 : Q)
    (l : list (string * DiarizedFileRecord)) :
  map row_filename (omap (mean_row h0 h1 s0 s1) l) `sublist_of` l.*1.
Proof.
  induction l as [|e l IH]; simpl; [constructor|].
  destruct (mean_row h0 h1 s0 s1 e) as [row|] eqn:E; simpl.
  - apply mean_row_Some in E as (-> & _). by constructor.
  - by constructor.
Qed.

Lemma mean_query_elem (st : store) (h0 h1 s0 s1 : Q) (row : MeanRow) :
  row ∈ meanScoreQuery st h0 h1 s0 s1 <->
  exists rec, st !! row_filename row = Some rec
    /\ humanScore rec = Some (row_humanScore row)
    /\ sampleLevelMeanScore rec = Some (row_sampleLevelMeanScore row)
    /\ (h0 <= inject_Z (row_humanScore row) <= h1)%Q
    /\ (s0 <= row_sampleLevelMeanScore row <= s1)%Q.
Proof.
  unfold meanScoreQuery. rewrite list_elem_of_omap. split.
  - intros ([f rec] & Hin & Hrow).
    apply elem_of_map_to_list in Hin.
    apply mean_row_Some in Hrow as (Hf & Hh & Hs & Hr). simpl in *.
    exists rec. rewrite Hf. auto.
  - intros (rec & Hst & Hh & Hs & Hr).
    exists (row_filename row, rec). split.
    + by apply elem_of_map_to_list.
    + apply mean_row_Some. simpl. auto.
Qed.

Example mean_query_sample :
  meanScoreQuery
    {[ "a.wav" := sample_record;
       "b.wav" := {| storageReference := "file-2"; storageKind := PyAnnote;
                     speakerCount := 3; jobReference := None;
                     humanScore := None; sampleLevelMeanScore := Some 50%Q;
                     sampleLevelConfidences := None;
                     diarizationSegments := None |} ]}
    0 100 0 100
  = [ {| row_filename := "a.wav"; row_humanScore := 70;
         row_sampleLevelMeanScore := 50%Q |} ].
Proof. vm_compute. reflexivity. Qed.

(** C1. The mean-score query returns a row for a filename exactly when
    the store holds under that filename a record whose [humanScore] and
    [sampleLevelMeanScore] are present and lie in their inclusive ranges,
    the row carrying these two scores; a record without [humanScore] is
    never returned; and no filename is returned twice. *)
Theorem mean_query_returns_exactly_matches (st : store) (h0 h1 s0 s1 : Q) :
  (forall row : MeanRow,
     row ∈ meanScoreQuery st h0 h1 s0 s1 <->
     exists rec, st !! row_filename row = Some rec
       /\ humanScore rec = Some (row_humanScore row)
       /\ sampleLevelMeanScore rec = Some (row_sampleLevelMeanScore row)
       /\ (h0 <= inject_Z (row_humanScore row) <= h1)%Q
       /\ (s0 <= row_sampleLevelMeanScore row <= s1)%Q)
  /\ (forall filename rec,
        st !! filename = Some rec -> humanScore rec = None ->
        filename ∉ map row_filename (meanScoreQuery st h0 h1 s0 s1))
  /\ NoDup (map row_filename (meanScoreQuery st h0 h1 s0 s1)).
Proof.
  split; [apply mean_query_elem|]. split.
  - intros filename rec Hst Hnone Hin.
    apply list_elem_of_fmap in Hin as (row & -> & Hin).
    apply mean_query_elem in Hin as (rec' & Hst' & Hh & _). congruence.
  - apply (sublist_NoDup _ _ (NoDup_fst_map_to_list st)).
    apply mean_rows_sublist.
Qed.

(** The entry that the window query builds for index [i]. *)
Lemma window_from_kept (pre ss : list Z) (r lo hi : Q) :
  window_from (length pre) ss r lo hi =
  map (fun i => {| sample_confidence := default 0 ((pre ++ ss) !! i);
                   sample_start := (inject_Z (Z.of_nat i) * r)%Q;
                   sample_end := (inject_Z (Z.of_nat i + 1) * r)%Q |})
      (kept_indices (length pre) ss lo hi).
Proof.
  revert pre. induction ss as [|v rest IH]; intros pre; simpl; [reflexivity|].
  specialize (IH (pre ++ [v])).
  rewrite length_app, Nat.add_1_r, <- app_assoc in IH. simpl in IH.
  destruct (in_range lo hi (inject_Z v)); simpl; rewrite IH; [|reflexivity].
  rewrite list_lookup_middle by reflexivity. reflexivity.
Qed.

Lemma kept_indices_spec (pre ss : list Z) (lo hi : Q) (i : nat) :
  i ∈ kept_indices (length pre) ss lo hi <->
  (length pre <= i)%nat
  /\ exists v, (pre ++ ss) !! i = Some v /\ (lo <= inject_Z v <= hi)%Q.
Proof.
  revert pre. induction ss as [|v rest IH]; intros pre; simpl.
  - split; [by intros ?%not_elem_of_nil|].
    intros (Hle & v & Hv & _). rewrite app_nil_r in Hv.
    apply lookup_lt_Some in Hv. lia.
  - specialize (IH (pre ++ [v])).
    rewrite length_app, Nat.add_1_r, <- app_assoc in IH. simpl in IH.
    assert (Hhead : (pre ++ v :: rest) !! length pre = Some v)
      by (by apply list_lookup_middle).
    destruct (in_range lo hi (inject_Z v)) eqn:E.
    + rewrite elem_of_cons, IH. apply in_range_spec in E. split.
      * intros [->|[Hle Hv]]; [|split; [lia|assumption]].
        split; [lia|]. eauto.
      * intros [Hle Hv].
        destruct (decide (i = length pre)) as [->|Hne]; [by left|].
        right. split; [lia|assumption].
    + rewrite IH. split.
      * intros [Hle Hv]. split; [lia|assumption].
      * intros [Hle (w & Hw & Hr)]. split; [|eauto].
        destruct (decide (i = length pre)) as [->|Hne]; [|lia].
        rewrite Hhead in Hw. injection Hw as <-.
        apply in_range_spec in Hr. congruence.
Qed.

Lemma kept_indices_sorted (i : nat) (ss : list Z) (lo hi : Q) :
  StronglySorted lt (kept_indices i ss lo hi)
  /\ Forall (le i) (kept_indices i ss lo hi).
Proof.
  revert i. induction ss as [|v rest IH]; intros i; simpl.
  - split; constructor.
  - destruct (IH (S i)) as [Hs Hge].
    assert (Hge' : Forall (le i) (kept_indices (S i) rest lo hi))
      by (eapply List.Forall_impl; [|exact Hge]; simpl; intros; lia).
    destruct (in_range lo hi (inject_Z v)); [|by split].
    split.
    + constructor; [assumption|].
      eapply List.Forall_impl; [|exact Hge]. simpl. intros; lia.
    + constructor; [lia|assumption].
Qed.

(** C2. For a stored record that carries sample-level confidences, the
    window query returns one entry per index whose score lies in the
    inclusive range, in increasing index order, the entry of index [i]
    carrying the score and the times [i * resolution] and
    [(i+1) * resolution]; with resolution 0.5, scores 10, 90, 50 and
    bounds 40 and 100 these are the entries (90, 0.5, 1.0) and
    (50, 1.0, 1.5), in that order. *)
Theorem sample_window_query_by_index
    (st : store) (filename : string) (rec : DiarizedFileRecord)
    (c : SampleLevelConfidences) (lo hi : Q) :
  st !! filename = Some rec ->
  sampleLevelConfidences rec = Some c ->
  (exists idx : list nat,
     sampleWindowQuery st filename lo hi =
       inr (map (fun i =>
                   {| sample_confidence := default 0 (scores c !! i);
                      sample_start := (inject_Z (Z.of_nat i) * resolution c)%Q;
                      sample_end := (inject_Z (Z.of_nat i + 1) * resolution c)%Q |})
                idx)
     /\ StronglySorted lt idx
     /\ forall i, i ∈ idx <->
          exists v, scores c !! i = Some v /\ (lo <= inject_Z v <= hi)%Q)
  /\ (scores c = [10; 90; 50] -> resolution c = (1 # 2)%Q ->
      exists entries,
        sampleWindowQuery st filename 40 100 = inr entries
        /\ Forall2 same_entry entries
             [ {| sample_confidence := 90;
                  sample_start := (1 # 2)%Q; sample_end := 1%Q |};
               {| sample_confidence := 50;
                  sample_start := 1%Q; sample_end := (3 # 2)%Q |} ]).
Proof.
  intros Hst Hc. unfold sampleWindowQuery. rewrite Hst, Hc. split.
  - exists (kept_indices 0 (scores c) lo hi). split; [|split].
    + f_equal. apply (window_from_kept [] (scores c)).
    + apply kept_indices_sorted.
    + intros i. rewrite (kept_indices_spec [] (scores c)). simpl.
      split; [intros [_ H]; exact H | intros H; split; [lia | exact H]].
  - intros -> ->. eexists. split; [reflexivity|].
    simpl. repeat constructor.
Qed.

Lemma sample_window_query_by_index_witness :
  exists entries,
    sampleWindowQuery {[ "a.wav" := sample_record ]} "a.wav" 40 100 = inr entries
    /\ Forall2 same_entry entries
         [ {| sample_confidence := 90;
              sample_start := (1 # 2)%Q; sample_end := 1%Q |};
           {| sample_confidence := 50;
              sample_start := 1%Q; sample_end := (3 # 2)%Q |} ].
Proof.
  apply (sample_window_query_by_index {[ "a.wav" := sample_record ]} "a.wav"
           sample_record {| scores := [10; 90; 50]; resolution := (1 # 2)%Q |}
           40 100); reflexivity.
Defined.

Section TurnLevelFacts.
Variable sub_score : DiarizationSegment -> option Q.

Lemma retained_spec (lo hi : Q) (seg : DiarizationSegment) :
  retained sub_score lo hi seg = true <->
  exists c, sub_score seg = Some c /\ (lo <= c <= hi)%Q.
Proof.
  unfold retained. destruct (sub_score seg) as [c|].
  - rewrite in_range_spec. split; [eauto|]. by intros (c' & [= <-] & H).
  - split; [discriminate|]. by intros (c' & [=] & _).
Qed.

Lemma turn_rows_of_retained (lo hi : Q) (segs : list DiarizationSegment) :
  Forall2 (fun seg row =>
             turn_start row = seg_start seg /\ turn_end row = seg_end seg
             /\ turn_speaker row = speaker seg
             /\ sub_score seg = Some (speakerConfidence row))
    (List.filter (retained sub_score lo hi) segs)
    (omap (turn_row sub_score lo hi) segs).
Proof.
  induction segs as [|seg segs IH]; simpl; [constructor|].
  unfold retained, turn_row.
  destruct (sub_score seg) as [c|] eqn:E; [|exact IH].
  destruct (in_range lo hi c); [|exact IH].
  constructor; [|exact IH]. simpl. auto.
Qed.

Lemma filter_sublist (keep : DiarizationSegment -> bool)
    (segs : list DiarizationSegment) :
  List.filter keep segs `sublist_of` segs.
Proof.
  induction segs as [|seg segs IH]; simpl; [constructor|].
  destruct (keep seg); by constructor.
Qed.

(** C3. For a stored record that carries diarization segments, the
    turn-level query returns one row per segment whose sub-score lies in
    the inclusive range, each row carrying the segment's start, end and
    speaker and that sub-score; the rows follow the stored order of the
    segments they come from. *)
Theorem turn_window_query_keeps_order
    (st : store) (filename : string) (rec : DiarizedFileRecord)
    (segs : list DiarizationSegment) (lo hi : Q) :
  st !! filename = Some rec ->
  diarizationSegments rec = Some segs ->
  exists rows kept,
    turnWindowQuery sub_score st filename lo hi = inr rows
    /\ kept `sublist_of` segs
    /\ (forall seg, seg ∈ kept <->
          seg ∈ segs /\ exists c, sub_score seg = Some c /\ (lo <= c <= hi)%Q)
    /\ kept = List.filter (retained sub_score lo hi) segs
    /\ Forall2 (fun seg row =>
                  turn_start row = seg_start seg /\ turn_end row = seg_end seg
                  /\ turn_speaker row = speaker seg
                  /\ sub_score seg = Some (speakerConfidence row))
         kept rows.
Proof.
  intros Hst Hsegs. unfold turnWindowQuery. rewrite Hst, Hsegs.
  exists (omap (turn_row sub_score lo hi) segs),
         (List.filter (retained sub_score lo hi) segs).
  split; [reflexivity|]. split; [apply filter_sublist|].
  split; [|split; [reflexivity|apply turn_rows_of_retained]].
  intros seg. rewrite list_elem_of_In, filter_In, <- list_elem_of_In.
  rewrite retained_spec. reflexivity.
Qed.

End TurnLevelFacts.

Lemma turn_window_query_keeps_order_witness :
  exists rows kept,
    turnWindowQuery own_speaker_score {[ "a.wav" := sample_record ]} "a.wav" 50 95
      = inr rows
    /\ kept `sublist_of` sample_segments
    /\ (forall seg, seg ∈ kept <->
          seg ∈ sample_segments
          /\ exists c, own_speaker_score seg = Some c /\ (50 <= c <= 95)%Q)
    /\ kept = List.filter (retained own_speaker_score 50 95) sample_segments
    /\ Forall2 (fun seg row =>
                  turn_start row = seg_start seg /\ turn_end row = seg_end seg
                  /\ turn_speaker row = speaker seg
                  /\ own_speaker_score seg = Some (speakerConfidence row))
         kept rows.
Proof.
  apply (turn_window_query_keeps_order own_speaker_score
           {[ "a.wav" := sample_record ]} "a.wav" sample_record sample_segments
           50 95); reflexivity.
Defined.

(** Once a record is deleted, none of the three queries returns it. *)
Lemma deleted_record_not_returned
    (sub_score : DiarizationSegment -> option Q)
    (st : store) (filename : string) (h0 h1 s0 s1 lo hi : Q) :
  (filename ∉ map row_filename
                (meanScoreQuery (deleteRecord filename st) h0 h1 s0 s1))
  /\ sampleWindowQuery (deleteRecord filename st) filename lo hi = inl NotFound
  /\ turnWindowQuery sub_score (deleteRecord filename st) filename lo hi
     = inl NotFound.
Proof.
  unfold deleteRecord, sampleWindowQuery, turnWindowQuery.
  rewrite lookup_delete_eq. split; [|by split].
  intros Hin. apply list_elem_of_fmap in Hin as (row & -> & Hin).
  apply mean_query_elem in Hin as (rec & Hst & _).
  by rewrite lookup_delete_eq in Hst.
Qed.

End QueryFacts.

(* ===================================================================== *)
(** ** Properties of the dashboard script *)
(* ===================================================================== *)

Section UIFacts.

Variable server : string -> list (string * jsval) -> exn + response.

Lemma requests_snoc (t : list event) (e : event) :
  is_fetch e = false -> requests (t ++ [e]) = requests t.
Proof.
  intros He. unfold requests. rewrite List.filter_app. simpl. rewrite He.
  apply app_nil_r.
Qed.

Lemma trace_console_log (msg : string) (w : world) :
  trace (console_log msg w).2 = trace w ++ [Log msg].
Proof. reflexivity. Qed.

(** A handler that stops at a bound check leaves only its message. *)
Lemma requests_console_log (msg : string) (w : world) :
  requests (trace (console_log msg w).2) = requests (trace w).
Proof. rewrite trace_console_log. by apply requests_snoc. Qed.

Lemma ge_bound (w : world) (lo hi : string) :
  ge (bound w lo) (bound w hi) = true ->
  exists a b, values w !! lo = Some a /\ values w !! hi = Some b
    /\ ge (parseInt a) (parseInt b) = true.
Proof.
  unfold bound.
  destruct (values w !! lo) as [a|], (values w !! hi) as [b|];
    try discriminate; eauto.
  destruct (parseInt a); discriminate.
Qed.

Lemma window_form_no_request
    (infSlider supSlider message fileInput route table : string)
    (columns : list string) (w : world) :
  ge (bound w infSlider) (bound w supSlider) = true ->
  requests (trace (window_form server infSlider supSlider message fileInput
                     route table columns w).2)
  = requests (trace w).
Proof.
  intros (a & b & Ha & Hb & Hge)%ge_bound.
  unfold window_form, bind, get_value. rewrite Ha, Hb, Hge.
  apply requests_console_log.
Qed.

(** C9. When, on submission of one of the three range-query forms, a
    lower bound is greater than or equal to its paired upper bound, the
    handler stops at its bound check: the trace gains no request. *)
Theorem bound_check_precedes_request (f : range_form) (w : world) :
  lower_reaches_upper f w = true ->
  requests (trace (submit server f w).2) = requests (trace w).
Proof.
  destruct f; simpl; intros H.
  - unfold selectMeanForm_submit, bind, get_value.
    destruct (values w !! "humanBorneInfSlider") as [a|] eqn:Ea; [|reflexivity].
    destruct (values w !! "humanBorneSupSlider") as [b|] eqn:Eb; [|reflexivity].
    destruct (ge (parseInt a) (parseInt b)) eqn:Eh;
      [apply requests_console_log|].
    apply orb_true_iff in H as [H|H].
    + unfold bound in H. rewrite Ea, Eb in H. congruence.
    + apply ge_bound in H as (a' & b' & -> & -> & ->).
      apply requests_console_log.
  - by apply window_form_no_request.
  - by apply window_form_no_request.
Qed.


(** With no global named [value], [deleteOptionByValue] raises whatever
    the dropdown holds; it has removed the first matching option by then. *)
Lemma deleteOptionByValue_raises (listId valeur : string) (w : world) :
  window_props w !! "value" = None ->
  exists e, (deleteOptionByValue listId valeur w).1 = inl e
    /\ trace (deleteOptionByValue listId valeur w).2 = trace w
    /\ forall id, id <> listId ->
         options (deleteOptionByValue listId valeur w).2 !! id = options w !! id.
Proof.
  intros Hvalue. unfold deleteOptionByValue, bind, get_options.
  destruct (options w !! listId) as [opts|]; [|by eexists].
  destruct (first_match valeur opts 0) as [i|]; simpl;
    unfold global_ref; simpl; rewrite Hvalue; simpl.
  - eexists. split; [reflexivity|]. split; [reflexivity|].
    intros id Hne. by rewrite lookup_insert_ne.
  - by eexists.
Qed.

(** X13. Hence [cleanData] gives up after the first id of [listIds]:
    with no global named [value], every other dropdown is left as it
    was. *)
Lemma cleanData_first_list_only (valeur : string) (w : world) :
  window_props w !! "value" = None ->
  forall id, id <> "filenameLists" ->
    options (cleanData valeur w).2 !! id = options w !! id.
Proof.
  intros Hvalue id Hne. unfold cleanData, try_catch, listIds.
  cbn [for_of]. unfold bind at 1.
  destruct (deleteOptionByValue_raises "filenameLists" valeur w Hvalue)
    as (e & He & _ & Hopts).
  destruct (deleteOptionByValue "filenameLists" valeur w) as [[e'|[]] w'];
    simpl in *; [|discriminate].
  by apply Hopts.
Qed.

(** C4, on the code: after a deletion of [a.wav] that the server accepts,
    only the first dropdown of [listIds] has lost [a.wav]; the six others
    still list it, because [cleanData] was interrupted by the reference
    to the unbound identifier [value]. *)
Theorem deletion_cleans_first_dropdown_only :
  options (deletionForm_submit answer_ok deletion_page).2 !! "filenameLists"
    = Some [EmptyString; "b.wav"]
  /\ Forall (fun id =>
               options (deletionForm_submit answer_ok deletion_page).2 !! id
               = Some [EmptyString; "a.wav"; "b.wav"])
       (tail listIds)
  /\ trace (deletionForm_submit answer_ok deletion_page).2
     = [ Fetch "POST" "/delete" [("filename", VStr "a.wav")];
         LogError "Error during refresh after deletion:" (ReferenceError "value");
         Log "Success:" ].
Proof.
  split; [vm_compute; reflexivity|].
  split; [|vm_compute; reflexivity].
  repeat constructor.
Qed.

Lemma endsWith_wav_false (f : file) :
  is_wav f = false ->
  negb (String.eqb (file_type f) "audio/wav" || String.eqb (file_type f) "audio/x-wav")
  || negb (endsWith (toLowerCase (file_name f)) ".wav") = true.
Proof.
  unfold is_wav.
  destruct (String.eqb (file_type f) "audio/wav" || String.eqb (file_type f) "audio/x-wav"),
    (endsWith (toLowerCase (file_name f)) ".wav"); simpl; congruence.
Qed.

Lemma requests_unchanged_by_reset (w : world) :
  requests (trace (resetFileInputFields w).2) = requests (trace w).
Proof.
  unfold resetFileInputFields, bind, set_value; simpl.
  destruct (values w !! "filenameUpload"); reflexivity.
Qed.

(** The guards of the upload handler up to the WAV test; what follows
    the test is left as the handler has it. *)
Lemma upload_guards (w : world) :
  uploadForm_submit server w =
  match values w !! "nbSpeakers" with
  | None => (inl (TypeError "nbSpeakers"), w)
  | Some nb =>
      if falsy nb then console_log "Please select a number of speakers." w
      else
        match audio_files w with
        | [] => console_log "Please select a file." w
        | f :: _ =>
            if negb (String.eqb (file_type f) "audio/wav"
                     || String.eqb (file_type f) "audio/x-wav")
               || negb (endsWith (toLowerCase (file_name f)) ".wav")
            then (console_log "The file must be a WAV file (.wav)." ;;;
                  resetFileInputFields)%js w
            else uploadForm_submit server w
        end
  end.
Proof.
  destruct (values w !! "nbSpeakers") as [nb|] eqn:Enb;
    [destruct (falsy nb) eqn:Efalsy;
     [|destruct (audio_files w) as [|f rest] eqn:Ef;
       [|destruct (negb _ || negb _) eqn:Ewav; [|reflexivity]]]|];
    unfold uploadForm_submit, get_files, bind, get_value; simpl;
    rewrite ?Enb, ?Efalsy, ?Ef, ?Ewav; simpl; rewrite ?Ewav; reflexivity.
Qed.

(** What the upload handler does with a file that is not a WAV file once
    a speaker count has been entered. *)
Lemma upload_refuses (w : world) (f : file) (rest : list file) (nb old : string) :
  audio_files w = f :: rest -> is_wav f = false ->
  values w !! "nbSpeakers" = Some nb -> falsy nb = false ->
  values w !! "filenameUpload" = Some old ->
  uploadForm_submit server w =
  (inr tt,
   mkWorld (<["filenameUpload" := EmptyString]> (values w)) [] (options w)
     (tables w) (window_props w) (numberOfDocuments w)
     (trace w ++ [Log "The file must be a WAV file (.wav)."])).
Proof.
  intros Hf Hwav%endsWith_wav_false Hnb Hfalsy Hold.
  rewrite upload_guards, Hnb, Hfalsy, Hf, Hwav.
  unfold bind, resetFileInputFields, bind, set_value. simpl. rewrite Hold.
  reflexivity.
Qed.

(** C10, as stated, fails: with no speaker count entered, a file that is
    not a WAV file is left in the form, and the filename field keeps its
    content. *)
Lemma upload_without_speaker_count_keeps_inputs :
  is_wav mp3_file = false
  /\ audio_files (upload_page EmptyString mp3_file) = [mp3_file]
  /\ audio_files (uploadForm_submit answer_ok (upload_page EmptyString mp3_file)).2
     = [mp3_file]
  /\ values (uploadForm_submit answer_ok (upload_page EmptyString mp3_file)).2
       !! "filenameUpload" = Some "song"
  /\ trace (uploadForm_submit answer_ok (upload_page EmptyString mp3_file)).2
     = [Log "Please select a number of speakers."].
Proof. repeat split; vm_compute; reflexivity. Qed.

(** C10, amended. The upload handler issues a request only when the
    selected file is a WAV file by name (case-insensitively) and by MIME
    type; for a selected file that is not, it issues no request and,
    when a speaker count has been entered, it logs the refusal and
    empties the file input and the filename field. *)
Theorem upload_request_requires_wav (w : world) :
  (requests (trace (uploadForm_submit server w).2) <> requests (trace w) ->
   exists f rest, audio_files w = f :: rest /\ is_wav f = true)
  /\ (forall f rest, audio_files w = f :: rest -> is_wav f = false ->
        requests (trace (uploadForm_submit server w).2) = requests (trace w)
        /\ forall nb, values w !! "nbSpeakers" = Some nb -> falsy nb = false ->
             is_Some (values w !! "filenameUpload") ->
             audio_files (uploadForm_submit server w).2 = []
             /\ values (uploadForm_submit server w).2 !! "filenameUpload"
                = Some EmptyString
             /\ trace (uploadForm_submit server w).2
                = trace w ++ [Log "The file must be a WAV file (.wav)."]).
Proof.
  assert (Hno : forall f rest, audio_files w = f :: rest -> is_wav f = false ->
            requests (trace (uploadForm_submit server w).2) = requests (trace w)).
  { intros f rest Hf Hwav%endsWith_wav_false.
    rewrite upload_guards.
    destruct (values w !! "nbSpeakers") as [nb|]; [|reflexivity].
    destruct (falsy nb); [apply requests_console_log|].
    rewrite Hf, Hwav. unfold bind. simpl.
    rewrite requests_unchanged_by_reset. apply requests_console_log. }
  split.
  - intros Hreq.
    destruct (audio_files w) as [|f rest] eqn:Hf.
    + exfalso. apply Hreq.
      rewrite upload_guards.
      destruct (values w !! "nbSpeakers") as [nb|]; [|reflexivity].
      destruct (falsy nb); [apply requests_console_log|].
      rewrite Hf. apply requests_console_log.
    + exists f, rest. split; [reflexivity|].
      destruct (is_wav f) eqn:Hwav; [reflexivity|].
      exfalso. apply Hreq. by apply (Hno f rest).
  - intros f rest Hf Hwav. split; [by apply (Hno f rest)|].
    intros nb Hnb Hfalsy [old Hold].
    rewrite (upload_refuses w f rest nb old) by assumption. simpl.
    split; [reflexivity|]. split; [apply lookup_insert_eq|reflexivity].
Qed.

End UIFacts.

Lemma upload_request_requires_wav_witness :
  is_wav mp3_file = false
  /\ requests (trace (uploadForm_submit answer_ok (upload_page "2" mp3_file)).2) = []
  /\ audio_files (uploadForm_submit answer_ok (upload_page "2" mp3_file)).2 = []
  /\ values (uploadForm_submit answer_ok (upload_page "2" mp3_file)).2
       !! "filenameUpload" = Some EmptyString.
Proof.
  destruct (upload_request_requires_wav answer_ok (upload_page "2" mp3_file))
    as [_ H].
  destruct (H mp3_file [] eq_refl eq_refl) as [Hreq Hreset].
  destruct (Hreset "2" eq_refl eq_refl (ex_intro _ "song" eq_refl))
    as (Hfiles & Hname & _).
  split; [reflexivity|]. split; [exact Hreq|]. split; assumption.
Defined.

Lemma bound_check_precedes_request_witness :
  lower_reaches_upper MeanForm (query_page "10" "90" "50" "50") = true
  /\ requests (trace (submit answer_ok MeanForm (query_page "10" "90" "50" "50")).2)
     = [].
Proof.
  split; [reflexivity|].
  apply (bound_check_precedes_request answer_ok MeanForm
           (query_page "10" "90" "50" "50")).
  reflexivity.
Defined.


(* ===================================================================== *)
(** ** Further properties of the validator and of the collection *)
(* ===================================================================== *)

Section MoreSchemaFacts.

Local Arguments validate : simpl never.
Local Arguments check : simpl never.
Local Arguments has_field : simpl never.

Lemma forallb_agree {A} (f g : A -> bool) (l : list A) :
  (forall x, In x l -> f x = g x) -> forallb f l = forallb g l.
Proof.
  induction l as [|x l IH]; simpl; intros H; [reflexivity|].
  rewrite (H x) by auto. rewrite IH by auto. reflexivity.
Qed.

(** Setting one field of an accepted document: only the schemas filed
    under that name are consulted again. *)
Lemma validate_set_field (k : string) (v : bson) (d : document) :
  validate file_infos (BObject d) = true ->
  validate file_infos (BObject (set_field k v d)) =
  forallb (fun ks => if String.eqb ks.1 k then validate ks.2 v else true)
    (properties file_infos).
Proof.
  intros [Hreq Hprops]%validate_file_infos.
  rewrite validate_object.
  change (type_ok file_infos (BObject (set_field k v d))) with true.
  change (enum_ok file_infos (BObject (set_field k v d))) with true.
  rewrite andb_true_l.
  replace (forallb (fun k0 => has_field k0 (set_field k v d)) (required file_infos))
    with true.
  - rewrite andb_true_l. apply forallb_agree. intros [k' s'] Hin. simpl.
    rewrite check_set. destruct (String.eqb k' k); [reflexivity|].
    rewrite List.Forall_forall in Hprops. apply (Hprops (k', s') Hin).
  - symmetry. apply forallb_forall. intros k' Hin. rewrite has_field_set.
    destruct (String.eqb k' k); [reflexivity|].
    rewrite List.Forall_forall in Hreq. by apply Hreq.
Qed.

Lemma validate_double_between (lo hi : Q) (v : bson) :
  validate (double_between lo hi) v = true <->
  exists x, v = BDouble x /\ (lo <= x <= hi)%Q.
Proof.
  unfold validate, double_between.
  split.
  - destruct v; simpl; try discriminate.
    unfold minimum_ok, maximum_ok, enum_ok; simpl. rewrite !andb_true_r.
    intros [H1 H2]%andb_true_iff. exists x.
    split; [reflexivity|]. split; by apply Qle_bool_iff.
  - intros (x & -> & H1 & H2); simpl.
    unfold minimum_ok, maximum_ok, enum_ok; simpl. rewrite !andb_true_r.
    apply andb_true_iff. split; by apply Qle_bool_iff.
Qed.

(** X1. In a document that the collection accepts, [human_score] may be
    set to [v] exactly when [v] is an int of [[0,100]]. *)
Theorem human_score_range (d : document) (v : bson) :
  validate file_infos (BObject d) = true ->
  validate file_infos (BObject (set_field "human_score" v d)) = true <->
  exists n, v = BInt n /\ 0 <= n <= 100.
Proof.
  intros Hd. rewrite validate_set_field by assumption.
  cbn [forallb properties file_infos fst snd String.eqb Ascii.eqb Bool.eqb].
  rewrite !andb_true_r. apply validate_int_between.
Qed.

Lemma human_score_range_witness :
  validate file_infos (BObject (set_field "human_score" (BInt 100) (created_doc "a.wav" 2)))
    = true
  /\ ~ validate file_infos
         (BObject (set_field "human_score" (BInt 101) (created_doc "a.wav" 2))) = true
  /\ ~ validate file_infos
         (BObject (set_field "human_score" (BDouble 50) (created_doc "a.wav" 2))) = true.
Proof.
  pose proof (fun v => human_score_range (created_doc "a.wav" 2) v eq_refl) as H.
  split; [apply H; exists 100; split; [reflexivity|lia]|].
  split; intros (n & Hn & Hr)%H; [injection Hn as <-; lia | discriminate].
Defined.

(** X2. In a document that the collection accepts,
    [sample_level_system_score] may be set to [v] exactly when [v] is a
    double of [[0,100]]; an int is refused whatever its value. *)
Theorem system_score_must_be_double (d : document) (v : bson) :
  validate file_infos (BObject d) = true ->
  (validate file_infos (BObject (set_field "sample_level_system_score" v d)) = true <->
   exists x, v = BDouble x /\ (0 <= x <= 100)%Q)
  /\ forall n, validate file_infos
       (BObject (set_field "sample_level_system_score" (BInt n) d)) = false.
Proof.
  intros Hd.
  assert (E : forall v', validate file_infos
            (BObject (set_field "sample_level_system_score" v' d))
            = validate (double_between 0 100) v').
  { intros v'. rewrite validate_set_field by assumption.
    cbn [forallb properties file_infos fst snd String.eqb Ascii.eqb Bool.eqb].
    by rewrite !andb_true_r. }
  split.
  - rewrite E. apply validate_double_between.
  - intros n. rewrite E. reflexivity.
Qed.

Lemma system_score_must_be_double_witness :
  validate file_infos
    (BObject (set_field "sample_level_system_score" (BDouble (171 # 2))
                (created_doc "a.wav" 2))) = true
  /\ validate file_infos
       (BObject (set_field "sample_level_system_score" (BInt 85)
                   (created_doc "a.wav" 2))) = false.
Proof.
  destruct (system_score_must_be_double (created_doc "a.wav" 2) (BDouble (171 # 2)) eq_refl)
    as [H Hint].
  split; [|apply Hint].
  apply H. eexists. split; [reflexivity|]. split; unfold Qle; simpl; lia.
Defined.

(** X3. Every document that the collection accepts carries the four
    required fields with their types: [storage_type] is the string
    PyAnnote, [filename] a string, [gridfs_id] an object id and
    [nb_speakers] an int of [[1,100]]. *)
Theorem accepted_document_identity (d : document) :
  validate file_infos (BObject d) = true ->
  get_field "storage_type" d = Some (BString "PyAnnote")
  /\ (exists f, get_field "filename" d = Some (BString f))
  /\ (exists oid, get_field "gridfs_id" d = Some (BObjectId oid))
  /\ (exists n, get_field "nb_speakers" d = Some (BInt n) /\ 1 <= n <= 100).
Proof.
  intros Hd. pose proof (valid_filename d Hd) as Hf.
  apply validate_file_infos in Hd as [Hreq Hprops].
  cbn [required properties file_infos] in Hreq, Hprops.
  split_Forall. unfold has_field, check in *.
  destruct (get_field "storage_type" d) as [st|]; [|discriminate].
  destruct (get_field "gridfs_id" d) as [oid|]; [|discriminate].
  destruct (get_field "nb_speakers" d) as [nb|]; [|discriminate].
  repeat split.
  - destruct st; try discriminate.
    match goal with
    | H : validate _ (BString s) = true |- _ =>
        unfold validate, enum_ok in H; simpl in H;
        rewrite !andb_true_r in H; apply orb_true_iff in H as [H|H];
        [apply String.eqb_eq in H; by subst|discriminate]
    end.
  - exact Hf.
  - destruct oid; try discriminate. eauto.
  - match goal with
    | H : validate (int_between 1 100) nb = true |- _ =>
        apply validate_int_between in H as (n & -> & Hn)
    end. eauto.
Qed.

Lemma accepted_document_identity_witness :
  get_field "storage_type" (created_doc "a.wav" 2) = Some (BString "PyAnnote")
  /\ (exists f, get_field "filename" (created_doc "a.wav" 2) = Some (BString f))
  /\ (exists oid, get_field "gridfs_id" (created_doc "a.wav" 2) = Some (BObjectId oid))
  /\ (exists n, get_field "nb_speakers" (created_doc "a.wav" 2) = Some (BInt n)
                /\ 1 <= n <= 100).
Proof. apply (accepted_document_identity (created_doc "a.wav" 2)). reflexivity. Defined.

(** X4. The validator constrains no field beyond its ten properties: a
    field of any other name may be added to an accepted document with
    any value. *)
Theorem unknown_fields_are_free (d : document) (k : string) (v : bson) :
  validate file_infos (BObject d) = true ->
  ~ In k property_names ->
  validate file_infos (BObject (set_field k v d)) = true.
Proof.
  intros Hd Hk. rewrite validate_set_field by assumption.
  apply forallb_forall. intros [k' s'] Hin. simpl.
  destruct (String.eqb k' k) eqn:E; [|reflexivity].
  apply String.eqb_eq in E. subst k'. exfalso. apply Hk.
  unfold property_names. apply in_map_iff. by exists (k, s').
Qed.

Lemma unknown_fields_are_free_witness :
  validate file_infos
    (BObject (set_field "turn_level_system_score" (BString "n/a")
                (created_doc "a.wav" 2))) = true.
Proof.
  apply (unknown_fields_are_free (created_doc "a.wav" 2)); [reflexivity|].
  unfold property_names. simpl. intros H.
  repeat (destruct H as [H|H]; [discriminate|]). exact H.
Defined.

(** X5. The validator of [diarization_result] items accepts exactly
    the objects that carry a double [start] and a double [end], both
    greater than or equal to zero, a string [speaker] and an object
    [confidence]. *)
Theorem segment_accepted_iff (v : bson) :
  validate segment_schema v = true <->
  exists (d : document) (s e : Q) (sp : string) (conf : document),
    v = BObject d
    /\ get_field "start" d = Some (BDouble s) /\ (0 <= s)%Q
    /\ get_field "end" d = Some (BDouble e) /\ (0 <= e)%Q
    /\ get_field "speaker" d = Some (BString sp)
    /\ get_field "confidence" d = Some (BObject conf).
Proof.
  rewrite validate_segment. split.
  - intros (d & -> & Hreq & Hprops).
    cbn [required properties segment_schema] in Hreq, Hprops.
    split_Forall. unfold has_field, check in *.
    destruct (get_field "start" d) as [vs|] eqn:Es; [|discriminate].
    destruct (get_field "end" d) as [ve|] eqn:Ee; [|discriminate].
    destruct (get_field "speaker" d) as [vp|] eqn:Ep; [|discriminate].
    destruct (get_field "confidence" d) as [vc|] eqn:Ec; [|discriminate].
    repeat match goal with
           | H : validate (double_from 0) _ = true |- _ =>
               apply validate_double_from in H as (? & -> & ?)
           end.
    destruct vp; try discriminate. destruct vc; try discriminate.
    do 5 eexists. repeat split; eauto.
  - intros (d & s & e & sp & conf & -> & Es & Hs & Ee & He & Ep & Ec).
    exists d. split; [reflexivity|].
    cbn [required properties segment_schema].
    split; repeat constructor; cbn [fst snd]; unfold has_field, check;
      rewrite ?Es, ?Ee, ?Ep, ?Ec; try reflexivity;
      apply validate_double_from; eauto.
Qed.

Lemma insert_all_shape (coll : collection) (ds : list document) :
  exists kept, insert_all coll ds = coll ++ kept /\ kept `sublist_of` ds.
Proof.
  revert coll. induction ds as [|d ds IH]; intros coll; simpl.
  - exists []. rewrite app_nil_r. split; constructor.
  - destruct (insertOne coll d) as [err|coll'] eqn:E.
    + destruct (IH coll) as (kept & -> & Hsub). exists kept.
      split; [reflexivity|by constructor].
    + apply insertOne_inr in E as (_ & _ & ->).
      destruct (IH (coll ++ [d])) as (kept & -> & Hsub). exists (d :: kept).
      rewrite <- app_assoc. split; [reflexivity|by constructor].
Qed.

Lemma insert_all_well_formed (coll : collection) (ds : list document) :
  well_formed coll -> well_formed (insert_all coll ds).
Proof.
  revert coll. induction ds as [|d ds IH]; intros coll Hwf; simpl; [assumption|].
  destruct (insertOne coll d) as [err|coll'] eqn:E; [by apply IH|].
  apply IH. by eapply insertOne_well_formed.
Qed.

(** X6. Whatever documents are offered to the empty collection, in
    whatever order, what it holds afterwards are some of them, in the
    order offered, each one valid, with pairwise distinct filenames. *)
Theorem collection_stays_well_formed (ds : list document) :
  well_formed (insert_all [] ds)
  /\ insert_all [] ds `sublist_of` ds.
Proof.
  split.
  - apply insert_all_well_formed. split; constructor.
  - destruct (insert_all_shape [] ds) as (kept & -> & Hsub). exact Hsub.
Qed.

End MoreSchemaFacts.

(* ===================================================================== *)
(** ** Further properties of the query, deletion and upload forms *)
(* ===================================================================== *)

Section MoreFormFacts.

Variable server : string -> list (string * jsval) -> exn + response.

(** Unfold the computations of a handler down to the state. *)
Ltac run_js :=
  unfold try_catch, fetch, check_ok, fillTable, set_table, console_log,
    console_error, emit, bind, ret, throw;
  simpl.

(** The part that the three range-query handlers share, from the request
    on: it never raises, it leaves exactly one request, and it touches
    nothing but the trace and the tables. *)
Lemma query_tail_frame (url fallback table : string)
    (payload : list (string * jsval)) (columns : list string) (w : world) :
  let w' := (try_catch
               (bind (fetch server "GET" url payload) (fun r =>
                bind (check_ok r fallback) (fun _ =>
                bind (console_log "Success:") (fun _ =>
                fillTable table (result r) columns))))
               (fun error => console_error "Error:" error) w) in
  w'.1 = inr tt
  /\ requests (trace w'.2) = requests (trace w) ++ [Fetch "GET" url payload]
  /\ values w'.2 = values w /\ options w'.2 = options w
  /\ audio_files w'.2 = audio_files w.
Proof.
  run_js.
  destruct (server url payload) as [e|r]; simpl;
    [|destruct (ok r); simpl;
      [destruct (tables w !! table); simpl;
       [destruct (result r); simpl; rewrite ?lookup_insert_eq; simpl|]|]];
    unfold requests; rewrite ?List.filter_app; simpl;
    rewrite ?app_nil_r; auto.
Qed.

(** What the shared part does to the tables, case by case. *)
Lemma query_tail_tables (url fallback table : string)
    (payload : list (string * jsval)) (columns : list string) (w : world) :
  tables (try_catch
            (bind (fetch server "GET" url payload) (fun r =>
             bind (check_ok r fallback) (fun _ =>
             bind (console_log "Success:") (fun _ =>
             fillTable table (result r) columns))))
            (fun error => console_error "Error:" error) w).2
  = match server url payload with
    | inr r =>
        if ok r then
          match tables w !! table, result r with
          | Some _, Some rows =>
              <[table := map (fun it => map (fun c => item_get c it) columns) rows]>
                (tables w)
          | Some _, None => <[table := []]> (tables w)
          | None, _ => tables w
          end
        else tables w
    | inl _ => tables w
    end.
Proof.
  run_js.
  destruct (server url payload) as [e|r]; simpl; [reflexivity|].
  destruct (ok r); simpl; [|reflexivity].
  destruct (tables w !! table) eqn:Et; simpl; [|reflexivity].
  destruct (result r); simpl; rewrite ?lookup_insert_eq; simpl;
    [apply insert_insert_eq|reflexivity].
Qed.

(** X7. Mean-score form: when both pairs of bounds are in order and the
    server answers with rows, the table shows one row per answered item,
    in the order of the answer, with the cells [filename], [human_score]
    and [system_score] of the item. *)
Theorem mean_form_fills_table (w : world) (a b a' b' : string) (r : response)
    (rows : list item) (old : list (list (option string))) :
  values w !! "humanBorneInfSlider" = Some a ->
  values w !! "humanBorneSupSlider" = Some b ->
  ge (parseInt a) (parseInt b) = false ->
  values w !! "sampleLevelBorneInfSlider" = Some a' ->
  values w !! "sampleLevelBorneSupSlider" = Some b' ->
  ge (parseInt a') (parseInt b') = false ->
  server "/get_filenames_by_mean_scores"
    [ ("human_score_min", VNum (parseInt a));
      ("human_score_max", VNum (parseInt b));
      ("sample_score_min", VNum (parseInt a'));
      ("sample_score_max", VNum (parseInt b')) ] = inr r ->
  ok r = true -> result r = Some rows ->
  tables w !! "tabMeanThreshold" = Some old ->
  tables (selectMeanForm_submit server w).2 !! "tabMeanThreshold"
  = Some (map (fun it => map (fun column => item_get column it)
                           ["filename"; "human_score"; "system_score"]) rows).
Proof.
  intros Ha Hb Hge Ha' Hb' Hge' Hsrv Hok Hres Htab.
  unfold selectMeanForm_submit, bind at 1, get_value. rewrite Ha.
  unfold bind at 1. rewrite Hb, Hge.
  unfold bind at 1. rewrite Ha'.
  unfold bind at 1. rewrite Hb', Hge'.
  rewrite query_tail_tables, Hsrv, Hok, Htab, Hres.
  apply lookup_insert_eq.
Qed.

(** X9. When the server refuses every request (an answer that is not ok,
    or no answer at all), submitting any of the three range-query forms
    leaves every table as it was: the rows of an earlier query stay on
    screen. *)
Theorem refused_query_keeps_tables (f : range_form) (w : world) :
  (forall url payload r, server url payload = inr r -> ok r = false) ->
  tables (submit server f w).2 = tables w.
Proof.
  intros Hrefuse.
  assert (Htail : forall url fallback table payload columns w0,
    tables (try_catch
              (bind (fetch server "GET" url payload) (fun r =>
               bind (check_ok r fallback) (fun _ =>
               bind (console_log "Success:") (fun _ =>
               fillTable table (result r) columns))))
              (fun error => console_error "Error:" error) w0).2 = tables w0).
  { intros. rewrite query_tail_tables.
    destruct (server url payload) as [e|r] eqn:E; [reflexivity|].
    by rewrite (Hrefuse _ _ _ E). }
  assert (Hwin : forall i s m fi route table columns,
    tables (window_form server i s m fi route table columns w).2 = tables w).
  { intros. unfold window_form, bind at 1, get_value.
    destruct (values w !! i); [|reflexivity].
    unfold bind at 1. destruct (values w !! s); [|reflexivity].
    destruct (ge _ _); [reflexivity|].
    unfold bind at 1. destruct (values w !! fi); [|reflexivity].
    destruct (falsy _); [reflexivity|]. apply Htail. }
  destruct f; simpl; [|apply Hwin|apply Hwin].
  unfold selectMeanForm_submit, bind at 1, get_value.
  destruct (values w !! "humanBorneInfSlider"); [|reflexivity].
  unfold bind at 1. destruct (values w !! "humanBorneSupSlider"); [|reflexivity].
  destruct (ge _ _); [reflexivity|].
  unfold bind at 1. destruct (values w !! "sampleLevelBorneInfSlider"); [|reflexivity].
  unfold bind at 1. destruct (values w !! "sampleLevelBorneSupSlider"); [|reflexivity].
  destruct (ge _ _); [reflexivity|]. apply Htail.
Qed.


(** X11. Nothing that the server does makes a range-query handler
    raise: the only exception that leaves one of the three handlers is
    the [TypeError] of a page element that is missing. *)
Theorem query_forms_catch_server_failures (f : range_form) (w : world) (e : exn) :
  (submit server f w).1 = inl e ->
  exists id, e = TypeError id /\ values w !! id = None.
Proof.
  assert (Htail : forall url fallback table payload columns w0,
    (try_catch
       (bind (fetch server "GET" url payload) (fun r =>
        bind (check_ok r fallback) (fun _ =>
        bind (console_log "Success:") (fun _ =>
        fillTable table (result r) columns))))
       (fun error => console_error "Error:" error) w0).1 = inl e -> False).
  { intros url fallback table payload columns w0 H.
    destruct (query_tail_frame url fallback table payload columns w0) as [E _].
    simpl in E. congruence. }
  assert (Hwin : forall i s m fi route table columns,
    (window_form server i s m fi route table columns w).1 = inl e ->
    exists id, e = TypeError id /\ values w !! id = None).
  { intros i s m fi route table columns.
    unfold window_form, bind at 1, get_value.
    destruct (values w !! i) eqn:Ei; [|intros [= <-]; eauto].
    unfold bind at 1. destruct (values w !! s) eqn:Es; [|intros [= <-]; eauto].
    destruct (ge _ _); [discriminate|].
    unfold bind at 1. destruct (values w !! fi) eqn:Ef; [|intros [= <-]; eauto].
    destruct (falsy _); [discriminate|]. intros H. by apply Htail in H. }
  destruct f; simpl; [|apply Hwin|apply Hwin].
  unfold selectMeanForm_submit, bind at 1, get_value.
  destruct (values w !! "humanBorneInfSlider") eqn:E1; [|intros [= <-]; eauto].
  unfold bind at 1.
  destruct (values w !! "humanBorneSupSlider") eqn:E2; [|intros [= <-]; eauto].
  destruct (ge _ _); [discriminate|].
  unfold bind at 1.
  destruct (values w !! "sampleLevelBorneInfSlider") eqn:E3; [|intros [= <-]; eauto].
  unfold bind at 1.
  destruct (values w !! "sampleLevelBorneSupSlider") eqn:E4; [|intros [= <-]; eauto].
  destruct (ge _ _); [discriminate|]. intros H. by apply Htail in H.
Qed.

Lemma first_match_fresh (valeur : string) (opts : list string) (i : nat) :
  valeur ∉ opts -> first_match valeur opts i = None.
Proof.
  revert i. induction opts as [|o opts IH]; intros i Hnot; simpl; [reflexivity|].
  apply not_elem_of_cons in Hnot as [Hne Hnot].
  destruct (String.eqb o valeur) eqn:E; [|by apply IH].
  apply String.eqb_eq in E. congruence.
Qed.

Lemma first_match_middle (valeur : string) (pre post : list string) (i : nat) :
  valeur ∉ pre ->
  first_match valeur (pre ++ valeur :: post) i = Some (i + length pre)%nat.
Proof.
  revert i. induction pre as [|o pre IH]; intros i Hnot; simpl.
  - rewrite String.eqb_refl. f_equal. lia.
  - apply not_elem_of_cons in Hnot as [Hne Hnot].
    destruct (String.eqb o valeur) eqn:E.
    + apply String.eqb_eq in E. congruence.
    + rewrite IH by assumption. f_equal. lia.
Qed.

(** X12. [deleteOptionByValue] removes from the dropdown the first
    option whose value is [valeur] and no other: a second option of the
    same value stays, and a dropdown without it is left as it is. This
    holds whether or not the call then raises. *)
Theorem deleteOptionByValue_removes_first_match
    (listId valeur : string) (w : world) (opts : list string) :
  options w !! listId = Some opts ->
  (valeur ∉ opts ->
   options (deleteOptionByValue listId valeur w).2 = options w)
  /\ (forall pre post, opts = pre ++ valeur :: post -> valeur ∉ pre ->
        options (deleteOptionByValue listId valeur w).2
        = <[listId := pre ++ post]> (options w)).
Proof.
  intros Hopts. split.
  - intros Hnot. unfold deleteOptionByValue, bind at 1, get_options.
    rewrite Hopts, (first_match_fresh _ _ _ Hnot).
    unfold bind, global_ref, console_log, emit.
    destruct (window_props w !! "value"); reflexivity.
  - intros pre post -> Hnot. unfold deleteOptionByValue, bind at 1, get_options.
    rewrite Hopts, (first_match_middle _ _ _ _ Hnot). simpl.
    rewrite delete_middle.
    unfold bind, set_options, global_ref, console_log, emit. simpl.
    destruct (window_props w !! "value"); reflexivity.
Qed.

(** X14. When the server refuses every request, the deletion handler
    leaves every dropdown as it was and does not raise. *)
Theorem refused_deletion_keeps_dropdowns (w : world) (filename : string) :
  values w !! "filenameDeletion" = Some filename ->
  (forall url payload r, server url payload = inr r -> ok r = false) ->
  options (deletionForm_submit server w).2 = options w
  /\ (deletionForm_submit server w).1 = inr tt.
Proof.
  intros Hname Hrefuse.
  split; unfold deletionForm_submit, bind at 1, get_value; rewrite Hname;
    (destruct (falsy filename); [reflexivity|]); run_js;
    (destruct (server "/delete" [("filename", VStr filename)]) as [e|r] eqn:E;
     simpl; [reflexivity|]);
    rewrite (Hrefuse _ _ _ E); reflexivity.
Qed.


(** X16. An upload submission whose filename field holds only white
    space sends nothing and keeps the chosen file and every field. *)
Theorem upload_blank_filename_sends_nothing
    (w : world) (nb raw : string) (f : file) (rest : list file) :
  values w !! "nbSpeakers" = Some nb -> falsy nb = false ->
  audio_files w = f :: rest -> is_wav f = true ->
  values w !! "filenameUpload" = Some raw -> falsy (trim raw) = true ->
  requests (trace (uploadForm_submit server w).2) = requests (trace w)
  /\ audio_files (uploadForm_submit server w).2 = audio_files w
  /\ values (uploadForm_submit server w).2 = values w.
Proof.
  intros Hnb Hfnb Hf Hwav Hraw Hfraw.
  assert (Hguard :
    negb (String.eqb (file_type f) "audio/wav" || String.eqb (file_type f) "audio/x-wav")
    || negb (endsWith (toLowerCase (file_name f)) ".wav") = false).
  { unfold is_wav in Hwav. apply andb_true_iff in Hwav as [-> ->]. reflexivity. }
  repeat split;
    unfold uploadForm_submit, get_files, bind at 1; cbn beta iota;
    unfold bind at 1, get_value; rewrite Hnb, Hfnb, Hf, Hguard;
    unfold bind at 1; rewrite Hraw, Hfraw;
    [apply requests_console_log|exact Hf|reflexivity].
Qed.

Lemma all_ext_chars_dot (b e : string) :
  all_ext_chars (b ++ "." ++ e)%string = false.
Proof.
  induction b as [|c b IH]; simpl; [reflexivity|].
  rewrite IH. apply andb_false_r.
Qed.

Lemma strip_extension_dot (base e : string) :
  e <> EmptyString -> all_ext_chars e = true ->
  strip_extension (base ++ "." ++ e)%string = base.
Proof.
  intros Hne He. induction base as [|c base IH].
  - destruct e as [|c' r]; [congruence|]. simpl. simpl in He. by rewrite He.
  - change (String c base ++ "." ++ e)%string
      with (String c (base ++ "." ++ e)%string).
    cbn [strip_extension].
    replace (extension_at (String c (base ++ "." ++ e))) with false;
      [by rewrite IH|].
    symmetry. unfold extension_at.
    destruct (base ++ "." ++ e)%string as [|c' r] eqn:E; [reflexivity|].
    rewrite <- E, all_ext_chars_dot. apply andb_false_r.
Qed.

(** X17. Choosing a file named [base.ext], where [ext] is not empty and
    holds neither a dot nor a slash, proposes [base] as the filename to
    upload: only the last extension is cut, and dots inside [base]
    stay. *)
Theorem picked_file_proposes_base_name
    (w : world) (f : file) (rest : list file) (base ext : string) :
  audio_files w = f :: rest ->
  file_name f = (base ++ "." ++ ext)%string ->
  ext <> EmptyString -> all_ext_chars ext = true ->
  is_Some (values w !! "filenameUpload") ->
  values (audio_change w).2 !! "filenameUpload" = Some base
  /\ audio_files (audio_change w).2 = audio_files w.
Proof.
  intros Hf Hname Hne Hext [old Hold].
  split; unfold audio_change, bind, get_files, set_value; simpl;
    rewrite Hf, Hname, strip_extension_dot, Hold by assumption; simpl;
    [apply lookup_insert_eq|by rewrite Hf].
Qed.

(** X18. What the file picker cuts from a name is nothing, or a final
    dot followed by characters other than dot and slash; a name without
    a dot is kept whole, and so is a name that ends in a dot. *)
Theorem strip_extension_cuts_a_suffix (name : string) :
  (exists cut, name = (strip_extension name ++ cut)%string
     /\ (cut = EmptyString \/ extension_at cut = true))
  /\ (all_ext_chars name = true -> strip_extension name = name)
  /\ strip_extension (name ++ ".")%string = (name ++ ".")%string.
Proof.
  split; [|split].
  - induction name as [|c r (cut & IH & Hcut)].
    + exists EmptyString. auto.
    + cbn [strip_extension]. destruct (extension_at (String c r)) eqn:E.
      * exists (String c r). auto.
      * exists cut. split; [|exact Hcut].
        change (String c r = String c (strip_extension r ++ cut)%string).
        by rewrite <- IH.
  - induction name as [|c r IH]; [reflexivity|].
    cbn [strip_extension all_ext_chars]. intros [Hc Hr]%andb_true_iff.
    replace (extension_at (String c r)) with false; [by rewrite IH|].
    destruct r; simpl; [reflexivity|].
    unfold ext_char in Hc. apply negb_true_iff, orb_false_iff in Hc as [_ ->].
    reflexivity.
  - induction name as [|c r IH]; [reflexivity|].
    change (String c r ++ ".")%string with (String c (r ++ ".")%string).
    cbn [strip_extension]. rewrite IH.
    replace (extension_at (String c (r ++ "."))) with false; [reflexivity|].
    destruct (r ++ ".")%string as [|c' r'] eqn:E; [reflexivity|].
    simpl. replace (ext_char c' && all_ext_chars r') with false;
      [by rewrite andb_false_r|].
    change (ext_char c' && all_ext_chars r') with (all_ext_chars (String c' r')).
    rewrite <- E. clear. induction r as [|c r IH]; simpl; [reflexivity|].
    rewrite <- IH. by rewrite andb_false_r.
Qed.

(** X19. The score form sends one request exactly when a file is chosen
    and a score is entered; the request carries the score as the text of
    the input, and nothing that the server does makes the handler
    raise. *)
Theorem score_form_request (w : world) (filename integer : string) :
  values w !! "filenameLists" = Some filename ->
  values w !! "integerInput" = Some integer ->
  requests (trace (integerForm_submit server w).2)
  = requests (trace w)
    ++ (if falsy filename || falsy integer then []
        else [ Fetch "POST" "/update_human_score"
                 [("filename", VStr filename); ("human_score", VStr integer)] ])
  /\ (integerForm_submit server w).1 = inr tt.
Proof.
  intros Hname Hint.
  split; unfold integerForm_submit, bind at 1, get_value; rewrite Hname;
    (destruct (falsy filename); simpl;
     [rewrite ?app_nil_r; first [apply requests_console_log|reflexivity]|]);
    unfold bind at 1; rewrite Hint;
    (destruct (falsy integer); simpl;
     [rewrite ?app_nil_r; first [apply requests_console_log|reflexivity]|]);
    run_js;
    (destruct (server "/update_human_score" _) as [e|r]; simpl;
     [|destruct (ok r); simpl]);
    unfold requests; rewrite ?List.filter_app; simpl; rewrite ?app_nil_r;
    reflexivity.
Qed.

(** X20. The diarization form sends one request exactly when a file is
    chosen, and nothing that the server does makes the handler raise. *)
Theorem diarisation_form_request (w : world) (filename : string) :
  values w !! "filenameDiarisation" = Some filename ->
  requests (trace (diarisationForm_submit server w).2)
  = requests (trace w)
    ++ (if falsy filename then []
        else [ Fetch "POST" "/diarise" [("filename", VStr filename)] ])
  /\ (diarisationForm_submit server w).1 = inr tt.
Proof.
  intros Hname.
  split; unfold diarisationForm_submit, bind at 1, get_value; rewrite Hname;
    (destruct (falsy filename); simpl;
     [rewrite ?app_nil_r; first [apply requests_console_log|reflexivity]|]);
    run_js;
    (destruct (server "/diarise" _) as [e|r]; simpl;
     [|destruct (ok r); simpl]);
    unfold requests; rewrite ?List.filter_app; simpl; rewrite ?app_nil_r;
    reflexivity.
Qed.

End MoreFormFacts.

(* ===================================================================== *)
(** ** Properties of the dropdown refresh and of the diagram form *)
(* ===================================================================== *)

Section RefreshFacts.

(** Unfold the computations of the script down to the state. *)
Ltac run_jsx :=
  unfold xtry, xbind, xret, xthrow, lift, settle, set_text, console_log,
    console_error, emit, get_value;
  simpl.

(** X21. With a file chosen and the diagram container on the page, the
    container shows the server's diagram exactly when the server answers
    ok; after any failure, a lost connection included, it shows the
    message that the file has not been diarized yet. *)
Theorem diagram_or_not_diarized
    (plot_answer : string -> exn + plot) (s : script) (filename old : string) :
  values (page s) !! "filenameSVG" = Some filename ->
  falsy filename = false ->
  texts s !! "plot-container" = Some old ->
  texts (svgForm_submit plot_answer s).2 !! "plot-container"
  = Some (match plot_answer filename with
          | inr r => if plot_ok r then plot_text r else not_diarized filename
          | inl _ => not_diarized filename
          end)
  /\ (svgForm_submit plot_answer s).1 = inr tt.
Proof.
  intros Hname Hfalsy Hold.
  split; unfold svgForm_submit; run_jsx; rewrite Hname; simpl; rewrite Hfalsy;
    simpl; (destruct (plot_answer filename) as [e|r]; simpl;
            [|destruct (plot_ok r); simpl]);
    rewrite Hold; simpl; first [apply lookup_insert_eq|reflexivity].
Qed.

Lemma existsb_eqb_elem (f : string) (l : list string) :
  existsb (String.eqb f) l = true <-> f ∈ l.
Proof.
  rewrite existsb_exists, list_elem_of_In. split.
  - intros (x & Hin & ->%String.eqb_eq). exact Hin.
  - intros Hin. exists f. split; [exact Hin|apply String.eqb_refl].
Qed.

Lemma newOptionsToAdd_elem (opts registered : list string) (f : string) :
  f ∈ newOptionsToAdd opts registered <-> f ∈ registered /\ f ∉ tail opts.
Proof.
  unfold newOptionsToAdd.
  rewrite list_elem_of_In, filter_In, <- list_elem_of_In, negb_true_iff.
  rewrite <- not_true_iff_false, existsb_eqb_elem. reflexivity.
Qed.

Lemma list_filter_sublist {A} (keep : A -> bool) (l : list A) :
  List.filter keep l `sublist_of` l.
Proof.
  induction l as [|x l IH]; simpl; [constructor|].
  destruct (keep x); by constructor.
Qed.

(** What one call of [updateFilenamesFields] does to the state. *)
Lemma updateFilenamesFields_run (listId : string) (s : script) :
  updateFilenamesFields listId s =
  match options (page s) !! listId with
  | Some opts =>
      (inr tt,
       mkScript
         (mkWorld (values (page s)) (audio_files (page s))
            (<[listId := opts ++ newOptionsToAdd opts (registeredFilenames s)]>
               (options (page s)))
            (tables (page s)) (window_props (page s))
            (numberOfDocuments (page s)) (trace (page s)))
         (registeredFilenames s) (texts s))
  | None => (inl (TypeError listId), s)
  end.
Proof.
  unfold updateFilenamesFields, xbind, get_registered, lift, get_options,
    set_options.
  destruct s as [w regs t]; simpl. destruct (options w !! listId); reflexivity.
Qed.

(** X22. [updateFilenamesFields] keeps every option of the dropdown in
    place and appends, in the order of the registered list, the
    registered filenames that no option after the first carries;
    afterwards every registered filename is offered. *)
Theorem updateFilenamesFields_adds_missing
    (listId : string) (s : script) (opts : list string) :
  options (page s) !! listId = Some opts ->
  exists added,
    options (page (updateFilenamesFields listId s).2)
      = <[listId := opts ++ added]> (options (page s))
    /\ added `sublist_of` registeredFilenames s
    /\ (forall f, f ∈ added <-> f ∈ registeredFilenames s /\ f ∉ tail opts)
    /\ (forall f, f ∈ registeredFilenames s -> f ∈ opts ++ added).
Proof.
  intros Hopts. exists (newOptionsToAdd opts (registeredFilenames s)).
  rewrite updateFilenamesFields_run, Hopts. simpl.
  split; [reflexivity|]. split; [apply list_filter_sublist|].
  split; [apply newOptionsToAdd_elem|].
  intros f Hf. apply elem_of_app.
  destruct (decide (f ∈ tail opts)) as [Hin|Hnot].
  - left. destruct opts; [by apply not_elem_of_nil in Hin|]. by right.
  - right. by apply newOptionsToAdd_elem.
Qed.

Lemma filter_all_known (known l : list string) :
  (forall f, f ∈ l -> f ∈ known) ->
  List.filter (fun f => negb (existsb (String.eqb f) known)) l = [].
Proof.
  induction l as [|f l IH]; intros H; simpl; [reflexivity|].
  replace (existsb (String.eqb f) known) with true.
  - simpl. apply IH. intros g Hg. apply H. by right.
  - symmetry. apply existsb_eqb_elem, H. by left.
Qed.

Lemma newOptionsToAdd_again (p : string) (rest registered : list string) :
  newOptionsToAdd ((p :: rest) ++ newOptionsToAdd (p :: rest) registered) registered
  = [].
Proof.
  unfold newOptionsToAdd at 1. simpl. apply filter_all_known.
  intros f Hf. apply elem_of_app.
  destruct (decide (f ∈ rest)) as [Hin|Hnot]; [by left|].
  right. by apply newOptionsToAdd_elem.
Qed.

(** X23. On a dropdown that has a first option (the placeholder),
    [updateFilenamesFields] is idempotent: a second refresh with the same
    registered list changes nothing. *)
Theorem updateFilenamesFields_idempotent
    (listId : string) (s : script) (p : string) (rest : list string) :
  options (page s) !! listId = Some (p :: rest) ->
  updateFilenamesFields listId (updateFilenamesFields listId s).2
  = updateFilenamesFields listId s.
Proof.
  intros Hopts.
  rewrite (updateFilenamesFields_run listId s), Hopts.
  rewrite updateFilenamesFields_run. cbn [snd page options registeredFilenames].
  rewrite lookup_insert_eq, newOptionsToAdd_again, app_nil_r.
  cbn. by rewrite insert_insert_eq.
Qed.

(** X24. On a dropdown without any option, a second refresh offers the
    first registered filename twice: the first option is never compared
    with the registered list. *)
Theorem updateFilenamesFields_without_placeholder
    (listId : string) (s : script) (f : string) (others : list string) :
  options (page s) !! listId = Some [] ->
  registeredFilenames s = f :: others -> NoDup (f :: others) ->
  options (page (updateFilenamesFields listId s).2) !! listId
    = Some (f :: others)
  /\ options (page (updateFilenamesFields listId
                      (updateFilenamesFields listId s).2).2) !! listId
     = Some ((f :: others) ++ [f]).
Proof.
  intros Hopts Hregs Hnd.
  assert (H1 : newOptionsToAdd [] (f :: others) = f :: others).
  { unfold newOptionsToAdd. simpl. f_equal. clear.
    induction others as [|g others IH]; simpl; [reflexivity|by f_equal]. }
  assert (H2 : newOptionsToAdd (f :: others) (f :: others) = [f]).
  { apply NoDup_cons in Hnd as [Hf Hnd]. unfold newOptionsToAdd. simpl.
    replace (existsb (String.eqb f) others) with false.
    - simpl. f_equal. apply filter_all_known. auto.
    - symmetry. apply not_true_iff_false. by rewrite existsb_eqb_elem. }
  split.
  - rewrite updateFilenamesFields_run, Hopts, Hregs, H1. simpl.
    apply lookup_insert_eq.
  - rewrite (updateFilenamesFields_run listId s), Hopts, Hregs, H1.
    rewrite updateFilenamesFields_run. cbn [snd page options registeredFilenames app].
    rewrite (lookup_insert_eq (options (page s))).
    cbn [snd page options registeredFilenames]. rewrite H2.
    apply lookup_insert_eq.
Qed.

(** X25. [updateFilenamesFields] introduces no duplicate: when the
    registered filenames are pairwise distinct and so are the options
    after the placeholder, they still are after the refresh. *)
Theorem updateFilenamesFields_no_duplicates
    (listId : string) (s : script) (p : string) (rest : list string) :
  options (page s) !! listId = Some (p :: rest) ->
  NoDup rest -> NoDup (registeredFilenames s) ->
  exists rest', options (page (updateFilenamesFields listId s).2) !! listId
                = Some (p :: rest')
    /\ NoDup rest'.
Proof.
  intros Hopts Hrest Hregs.
  exists (rest ++ newOptionsToAdd (p :: rest) (registeredFilenames s)).
  rewrite updateFilenamesFields_run, Hopts. simpl.
  split; [apply lookup_insert_eq|].
  apply NoDup_app. split; [exact Hrest|]. split.
  - intros f Hin Hadd. apply newOptionsToAdd_elem in Hadd as [_ Hnot]. by apply Hnot.
  - apply (sublist_NoDup _ _ Hregs), list_filter_sublist.
Qed.

Lemma show_slider_display_only (display slider : string) :
  display_only (show_slider display slider).
Proof.
  intros s. unfold show_slider, xbind, lift, get_value, set_text.
  destruct (values (page s) !! slider) as [v|] eqn:Ev.
  - destruct (texts s !! display) as [old|] eqn:Et.
    + exists (inr tt), (<[display := v]> (texts s)). intros s2 Hv Ht.
      rewrite Hv, Ev. simpl. rewrite Ht, Et. reflexivity.
    + exists (inl (TypeError display)), (texts s). intros s2 Hv Ht.
      rewrite Hv, Ev. simpl. rewrite Ht, Et. by rewrite <- Ht.
  - exists (inl (TypeError slider)), (texts s). intros s2 Hv Ht.
    rewrite Hv, Ev. by rewrite <- Ht.
Qed.

Lemma seq_display_only (m k : jsx unit) :
  display_only m -> display_only k -> display_only (xbind m (fun _ => k)).
Proof.
  intros Hm Hk s. destruct (Hm s) as (r & t' & Hrun).
  destruct r as [e|[]].
  - exists (inl e), t'. intros s2 Hv Ht. unfold xbind. by rewrite (Hrun s2 Hv Ht).
  - destruct (Hk (mkScript (page s) (registeredFilenames s) t'))
      as (r2 & t2 & Hrun2).
    exists r2, t2. intros s2 Hv Ht. unfold xbind. rewrite (Hrun s2 Hv Ht).
    by rewrite (Hrun2 (mkScript (page s2) (registeredFilenames s2) t') Hv eq_refl).
Qed.

Lemma refreshSlidersDisplay_display_only : display_only refreshSlidersDisplay.
Proof.
  unfold refreshSlidersDisplay.
  repeat (apply seq_display_only; [apply show_slider_display_only|]).
  apply show_slider_display_only.
Qed.

Section WithAnswers.

Variable docs_answer names_answer : exn + info.

(** The script's list and counter once both answers are handled. *)
Lemma answers_effect :
  exists evd evn, forall (docs_first : bool) (s : script),
    answers docs_answer names_answer docs_first s =
    (inr tt,
     mkScript
       (mkWorld (values (page s)) (audio_files (page s)) (options (page s))
          (tables (page s)) (window_props (page s))
          (match docs_answer with
           | inr r => if info_ok r then nb_of_docs r
                      else numberOfDocuments (page s)
           | inl _ => numberOfDocuments (page s)
           end)
          (trace (page s) ++ (if docs_first then [evd; evn] else [evn; evd])))
       (match names_answer with
        | inr r => if info_ok r then filenames r else registeredFilenames s
        | inl _ => registeredFilenames s
        end)
       (texts s)).
Proof.
  unfold answers, getNumberOfDocuments_answer, getAllFilenames_answer,
    check_info, set_registered, set_numberOfDocuments.
  destruct docs_answer as [e1|r1]; [|destruct (info_ok r1) eqn:E1];
    (destruct names_answer as [e2|r2]; [|destruct (info_ok r2) eqn:E2]);
    eexists _, _; intros [] [[v af o tb wp n tr] regs tx]; run_jsx;
    rewrite ?E1, ?E2; simpl; rewrite ?E1, ?E2; simpl;
    rewrite <- ?app_assoc; simpl; reflexivity.
Qed.

(** With pairwise distinct ids, the loop of [refreshData] refreshes each
    dropdown that exists from the registered list and touches nothing
    else. *)
Lemma refresh_loop (ids : list string) (s : script) :
  NoDup ids ->
  exists o',
    xfor_of ids (fun listId => spawn (updateFilenamesFields listId)) s =
    (inr tt,
     mkScript
       (mkWorld (values (page s)) (audio_files (page s)) o'
          (tables (page s)) (window_props (page s))
          (numberOfDocuments (page s)) (trace (page s)))
       (registeredFilenames s) (texts s))
    /\ forall id,
         o' !! id =
         if decide (id ∈ ids)
         then (fun opts => opts ++ newOptionsToAdd opts (registeredFilenames s))
                <$> options (page s) !! id
         else options (page s) !! id.
Proof.
  intros Hnd. revert s. induction Hnd as [|id0 ids Hnot Hnd IH]; intros s.
  - exists (options (page s)). destruct s as [[v af o tb wp n tr] regs tx].
    split; [reflexivity|]. intros id. by rewrite decide_False by apply not_elem_of_nil.
  - cbn [xfor_of]. unfold xbind at 1, spawn at 1, xtry.
    rewrite updateFilenamesFields_run.
    destruct (options (page s) !! id0) as [opts|] eqn:E0.
    + match goal with
      | |- context [xfor_of ids _ ?s1] => destruct (IH s1) as (o' & Hrun & Hlook)
      end.
      exists o'. simpl in *. split; [exact Hrun|].
      intros id. rewrite Hlook.
      destruct (decide (id = id0)) as [->|Hne].
      * rewrite decide_False by assumption.
        rewrite decide_True by (by left).
        by rewrite lookup_insert_eq, E0.
      * rewrite lookup_insert_ne by congruence.
        destruct (decide (id ∈ ids)) as [Hin|Hout].
        -- by rewrite decide_True by (by right).
        -- rewrite decide_False; [reflexivity|].
           by intros [?|?]%elem_of_cons.
    + unfold xret. destruct (IH s) as (o' & Hrun & Hlook).
      exists o'. split; [exact Hrun|].
      intros id. rewrite Hlook.
      destruct (decide (id = id0)) as [->|Hne].
      * rewrite decide_False by assumption.
        rewrite decide_True by (by left). by rewrite E0.
      * destruct (decide (id ∈ ids)) as [Hin|Hout].
        -- by rewrite decide_True by (by right).
        -- rewrite decide_False; [reflexivity|].
           by intros [?|?]%elem_of_cons.
Qed.

Lemma listIds_NoDup : NoDup listIds.
Proof. apply NoDup_ListNoDup. unfold listIds. repeat constructor; simpl; intuition discriminate. Qed.

(** [refreshData] in closed form: [r] and [t'] are the outcome and the
    texts of the display refresh, [o'] the dropdowns after the loop. *)
Lemma refreshData_run (s : script) :
  exists evd evn r t' o',
    refreshSlidersDisplay s = (r, mkScript (page s) (registeredFilenames s) t')
    /\ (forall id,
          o' !! id =
          if decide (id ∈ listIds)
          then (fun opts =>
                  opts ++ newOptionsToAdd opts
                            (match names_answer with
                             | inr a => if info_ok a then filenames a
                                        else registeredFilenames s
                             | inl _ => registeredFilenames s
                             end))
                 <$> options (page s) !! id
          else options (page s) !! id)
    /\ forall docs_first,
         refreshData docs_answer names_answer docs_first s =
         (inr tt,
          mkScript
            (mkWorld (values (page s)) (audio_files (page s))
               (match r with inr _ => o' | inl _ => options (page s) end)
               (tables (page s)) (window_props (page s))
               (match docs_answer with
                | inr a => if info_ok a then nb_of_docs a
                           else numberOfDocuments (page s)
                | inl _ => numberOfDocuments (page s)
                end)
               (trace (page s)
                ++ [ Fetch "GET" "/get_number_of_documents" [];
                     Fetch "GET" "/get_all_filenames" [] ]
                ++ match r with
                   | inr _ => []
                   | inl e => [LogError "Error during initialization:" e]
                   end
                ++ (if docs_first then [evd; evn] else [evn; evd])))
            (match names_answer with
             | inr a => if info_ok a then filenames a else registeredFilenames s
             | inl _ => registeredFilenames s
             end)
            t').
Proof.
  destruct answers_effect as (evd & evn & Hans).
  destruct (refreshSlidersDisplay_display_only s) as (r & t' & Hdisp).
  set (regs' := match names_answer with
                | inr a => if info_ok a then filenames a else registeredFilenames s
                | inl _ => registeredFilenames s
                end).
  destruct (refresh_loop listIds
              (mkScript (page s) regs' t') listIds_NoDup) as (o' & _ & Hlook).
  exists evd, evn, r, t', o'.
  split; [by apply Hdisp|]. split; [exact Hlook|].
  intros docs_first.
  unfold refreshData, getNumberOfDocuments_request, getAllFilenames_request.
  unfold xbind at 1, lift at 1, emit at 1. cbn beta iota.
  unfold xbind at 1, lift at 1, emit at 1. cbn beta iota.
  unfold xtry, xbind at 1.
  match goal with
  | |- context [refreshSlidersDisplay ?s0] => rewrite (Hdisp s0 eq_refl eq_refl)
  end.
  cbn [page registeredFilenames texts].
  destruct r as [e|[]].
  - unfold xbind, lift, console_error, emit. cbn beta iota.
    rewrite Hans. cbn. rewrite <- !app_assoc. reflexivity.
  - unfold xbind at 1. rewrite Hans.
    match goal with
    | |- context [xfor_of listIds _ ?s1] =>
        destruct (refresh_loop listIds s1 listIds_NoDup) as (o2 & Hrun & Hlook2)
    end.
    rewrite Hrun. cbn in Hlook2 |- *.
    replace o2 with o'.
    + rewrite <- !app_assoc. reflexivity.
    + apply map_eq. intros id. rewrite Hlook, Hlook2. reflexivity.
Qed.

(** X26. The state that [refreshData] leaves does not depend on which of
    the two answers arrives first: the registered list, the counter, the
    dropdowns, the displays and the fields are the same, the console
    holds the same lines in another order, and nothing is raised. *)
Theorem refreshData_order_independent (s : script) :
  registeredFilenames (refreshData docs_answer names_answer true s).2
    = registeredFilenames (refreshData docs_answer names_answer false s).2
  /\ numberOfDocuments (page (refreshData docs_answer names_answer true s).2)
     = numberOfDocuments (page (refreshData docs_answer names_answer false s).2)
  /\ options (page (refreshData docs_answer names_answer true s).2)
     = options (page (refreshData docs_answer names_answer false s).2)
  /\ texts (refreshData docs_answer names_answer true s).2
     = texts (refreshData docs_answer names_answer false s).2
  /\ values (page (refreshData docs_answer names_answer true s).2)
     = values (page (refreshData docs_answer names_answer false s).2)
  /\ trace (page (refreshData docs_answer names_answer true s).2)
     ≡ₚ trace (page (refreshData docs_answer names_answer false s).2)
  /\ (forall docs_first,
        (refreshData docs_answer names_answer docs_first s).1 = inr tt).
Proof.
  destruct (refreshData_run s) as (evd & evn & r & t' & o' & _ & _ & Hrun).
  assert (Hall : forall docs_first,
            (refreshData docs_answer names_answer docs_first s).1 = inr tt)
    by (intros b; by rewrite Hrun).
  rewrite !Hrun. cbn [fst snd page registeredFilenames texts numberOfDocuments
                      options values trace].
  repeat (split; [reflexivity|]). split; [|exact Hall].
  apply Permutation_app_head. cbn [app]. do 2 apply perm_skip.
  apply Permutation_app_head, perm_swap.
Qed.

(** X27. When the displays refresh without error and the server answers
    the filename request, [refreshData] stores the answered list, and
    every dropdown of [listIds] that is on the page keeps its options in
    place and offers every answered filename. *)
Theorem refreshData_offers_every_filename
    (docs_first : bool) (s : script) (a : info) :
  (refreshSlidersDisplay s).1 = inr tt ->
  names_answer = inr a -> info_ok a = true ->
  registeredFilenames (refreshData docs_answer names_answer docs_first s).2
    = filenames a
  /\ forall listId opts,
       listId ∈ listIds -> options (page s) !! listId = Some opts ->
       exists added,
         options (page (refreshData docs_answer names_answer docs_first s).2)
           !! listId = Some (opts ++ added)
         /\ forall f, f ∈ filenames a -> f ∈ opts ++ added.
Proof.
  intros Hdisp Hnames Hok.
  destruct (refreshData_run s) as (evd & evn & r & t' & o' & Hr & Hlook & Hrun).
  rewrite Hr in Hdisp. simpl in Hdisp. subst r.
  rewrite !Hrun. cbn. rewrite Hnames, Hok in *. split; [reflexivity|].
  intros listId opts Hin Hopts.
  exists (newOptionsToAdd opts (filenames a)).
  rewrite Hlook, decide_True, Hopts by assumption. split; [reflexivity|].
  intros f Hf. apply elem_of_app.
  destruct (decide (f ∈ tail opts)) as [Ht|Hnot].
  - left. destruct opts; [by apply not_elem_of_nil in Ht|]. by right.
  - right. by apply newOptionsToAdd_elem.
Qed.

(** X28. When a slider or one of its displays is missing from the page,
    [refreshData] logs the error and refreshes no dropdown, although it
    still stores what the server answers. *)
Theorem refreshData_without_displays
    (docs_first : bool) (s : script) (e : exn) :
  (refreshSlidersDisplay s).1 = inl e ->
  options (page (refreshData docs_answer names_answer docs_first s).2)
    = options (page s)
  /\ registeredFilenames (refreshData docs_answer names_answer docs_first s).2
     = match names_answer with
       | inr a => if info_ok a then filenames a else registeredFilenames s
       | inl _ => registeredFilenames s
       end
  /\ In (LogError "Error during initialization:" e)
       (trace (page (refreshData docs_answer names_answer docs_first s).2))
  /\ (refreshData docs_answer names_answer docs_first s).1 = inr tt.
Proof.
  intros Hdisp.
  destruct (refreshData_run s) as (evd & evn & r & t' & o' & Hr & _ & Hrun).
  rewrite Hr in Hdisp. simpl in Hdisp. subst r.
  rewrite !Hrun. cbn. repeat split.
  apply in_or_app. right. simpl. auto.
Qed.

End WithAnswers.

End RefreshFacts.

(* ===================================================================== *)
(** ** The further properties at sample inputs *)
(* ===================================================================== *)

Lemma mean_form_fills_table_witness :
  tables (selectMeanForm_submit
            (answer_with (Some [[("filename", "a.wav"); ("human_score", "70")]]))
            (query_page "10" "90" "50" "60")).2 !! "tabMeanThreshold"
  = Some [[Some "a.wav"; Some "70"; None]].
Proof.
  apply (mean_form_fills_table
           (answer_with (Some [[("filename", "a.wav"); ("human_score", "70")]]))
           (query_page "10" "90" "50" "60") "10" "90" "50" "60"
           {| ok := true; details := None;
              result := Some [[("filename", "a.wav"); ("human_score", "70")]] |}
           [[("filename", "a.wav"); ("human_score", "70")]] []);
    reflexivity.
Defined.


Lemma refused_query_keeps_tables_witness :
  tables (submit offline SampleLevelForm (query_page "10" "90" "50" "60")).2
  = tables (query_page "10" "90" "50" "60").
Proof.
  apply (refused_query_keeps_tables offline SampleLevelForm
           (query_page "10" "90" "50" "60")).
  intros url payload r. discriminate.
Defined.


Lemma query_forms_catch_server_failures_witness :
  exists id, TypeError "humanBorneInfSlider" = TypeError id
    /\ values deletion_page !! id = None.
Proof.
  apply (query_forms_catch_server_failures answer_ok MeanForm deletion_page).
  reflexivity.
Defined.

Lemma deleteOptionByValue_removes_first_match_witness :
  options (deleteOptionByValue "filenameSVG" "a.wav" deletion_page).2
  = <["filenameSVG" := [EmptyString] ++ ["b.wav"]]> (options deletion_page).
Proof.
  destruct (deleteOptionByValue_removes_first_match "filenameSVG" "a.wav"
              deletion_page [EmptyString; "a.wav"; "b.wav"] eq_refl) as [_ H].
  apply (H [EmptyString] ["b.wav"] eq_refl).
  intros [Hin|Hin]%elem_of_cons; [discriminate|by apply not_elem_of_nil in Hin].
Defined.

Lemma cleanData_first_list_only_witness :
  options (cleanData "a.wav" deletion_page).2 !! "filenameTurn"
  = options deletion_page !! "filenameTurn".
Proof.
  apply (cleanData_first_list_only "a.wav" deletion_page); [reflexivity|discriminate].
Defined.

Lemma refused_deletion_keeps_dropdowns_witness :
  options (deletionForm_submit offline deletion_page).2 = options deletion_page
  /\ (deletionForm_submit offline deletion_page).1 = inr tt.
Proof.
  apply (refused_deletion_keeps_dropdowns offline deletion_page "a.wav");
    [reflexivity|].
  intros url payload r. discriminate.
Defined.


Lemma upload_blank_filename_sends_nothing_witness :
  requests (trace (uploadForm_submit answer_ok
                     (mkWorld {[ "nbSpeakers" := "2"; "filenameUpload" := "  " ]}
                        [wav_file] ∅ ∅ ∅ 2 [])).2) = []
  /\ audio_files (uploadForm_submit answer_ok
                    (mkWorld {[ "nbSpeakers" := "2"; "filenameUpload" := "  " ]}
                       [wav_file] ∅ ∅ ∅ 2 [])).2 = [wav_file]
  /\ values (uploadForm_submit answer_ok
               (mkWorld {[ "nbSpeakers" := "2"; "filenameUpload" := "  " ]}
                  [wav_file] ∅ ∅ ∅ 2 [])).2
     = {[ "nbSpeakers" := "2"; "filenameUpload" := "  " ]}.
Proof.
  exact (upload_blank_filename_sends_nothing answer_ok
           (mkWorld {[ "nbSpeakers" := "2"; "filenameUpload" := "  " ]}
              [wav_file] ∅ ∅ ∅ 2 [])
           "2" "  " wav_file [] eq_refl eq_refl eq_refl eq_refl eq_refl eq_refl).
Defined.

Lemma picked_file_proposes_base_name_witness :
  values (audio_change
            (upload_page "2" {| file_name := "talk.v2.wav";
                                file_type := "audio/wav" |})).2
    !! "filenameUpload" = Some "talk.v2"
  /\ audio_files (audio_change
                    (upload_page "2" {| file_name := "talk.v2.wav";
                                        file_type := "audio/wav" |})).2
     = [ {| file_name := "talk.v2.wav"; file_type := "audio/wav" |} ].
Proof.
  apply (picked_file_proposes_base_name
           (upload_page "2" {| file_name := "talk.v2.wav"; file_type := "audio/wav" |})
           {| file_name := "talk.v2.wav"; file_type := "audio/wav" |} []
           "talk.v2" "wav");
    [reflexivity|reflexivity|discriminate|reflexivity|by eexists].
Defined.

Lemma score_form_request_witness :
  requests (trace (integerForm_submit answer_ok
                     (mkWorld {[ "filenameLists" := "a.wav"; "integerInput" := "80" ]}
                        [] ∅ ∅ ∅ 2 [])).2)
  = [ Fetch "POST" "/update_human_score"
        [("filename", VStr "a.wav"); ("human_score", VStr "80")] ]
  /\ (integerForm_submit answer_ok
        (mkWorld {[ "filenameLists" := "a.wav"; "integerInput" := "80" ]}
           [] ∅ ∅ ∅ 2 [])).1 = inr tt.
Proof.
  apply (score_form_request answer_ok
           (mkWorld {[ "filenameLists" := "a.wav"; "integerInput" := "80" ]}
              [] ∅ ∅ ∅ 2 [])
           "a.wav" "80"); reflexivity.
Defined.

Lemma diarisation_form_request_witness :
  requests (trace (diarisationForm_submit answer_ok
                     (mkWorld {[ "filenameDiarisation" := EmptyString ]}
                        [] ∅ ∅ ∅ 2 [])).2) = []
  /\ (diarisationForm_submit answer_ok
        (mkWorld {[ "filenameDiarisation" := EmptyString ]} [] ∅ ∅ ∅ 2 [])).1
     = inr tt.
Proof.
  apply (diarisation_form_request answer_ok
           (mkWorld {[ "filenameDiarisation" := EmptyString ]} [] ∅ ∅ ∅ 2 [])
           EmptyString); reflexivity.
Defined.

Lemma diagram_or_not_diarized_witness :
  texts (svgForm_submit (fun _ => inl (Error "offline"))
           (mkScript (mkWorld {[ "filenameSVG" := "a.wav" ]} [] ∅ ∅ ∅ 2 []) []
              {[ "plot-container" := "<svg/>" ]})).2 !! "plot-container"
  = Some (not_diarized "a.wav")
  /\ (svgForm_submit (fun _ => inl (Error "offline"))
        (mkScript (mkWorld {[ "filenameSVG" := "a.wav" ]} [] ∅ ∅ ∅ 2 []) []
           {[ "plot-container" := "<svg/>" ]})).1 = inr tt.
Proof.
  apply (diagram_or_not_diarized (fun _ => inl (Error "offline"))
           (mkScript (mkWorld {[ "filenameSVG" := "a.wav" ]} [] ∅ ∅ ∅ 2 []) []
              {[ "plot-container" := "<svg/>" ]})
           "a.wav" "<svg/>"); reflexivity.
Defined.

Lemma updateFilenamesFields_adds_missing_witness :
  exists added,
    options (page (updateFilenamesFields "filenameTurn"
                     (sample_script ["a.wav"; "c.wav"])).2)
      = <["filenameTurn" := [EmptyString; "a.wav"; "b.wav"] ++ added]>
          (options (page (sample_script ["a.wav"; "c.wav"])))
    /\ added `sublist_of` ["a.wav"; "c.wav"]
    /\ (forall f, f ∈ added <->
          f ∈ ["a.wav"; "c.wav"] /\ f ∉ tail [EmptyString; "a.wav"; "b.wav"])
    /\ (forall f, f ∈ ["a.wav"; "c.wav"] ->
          f ∈ [EmptyString; "a.wav"; "b.wav"] ++ added).
Proof.
  apply (updateFilenamesFields_adds_missing "filenameTurn"
           (sample_script ["a.wav"; "c.wav"]) [EmptyString; "a.wav"; "b.wav"]).
  reflexivity.
Defined.

Lemma updateFilenamesFields_idempotent_witness :
  updateFilenamesFields "filenameTurn"
    (updateFilenamesFields "filenameTurn" (sample_script ["a.wav"; "c.wav"])).2
  = updateFilenamesFields "filenameTurn" (sample_script ["a.wav"; "c.wav"]).
Proof.
  apply (updateFilenamesFields_idempotent "filenameTurn"
           (sample_script ["a.wav"; "c.wav"]) EmptyString ["a.wav"; "b.wav"]).
  reflexivity.
Defined.

Lemma updateFilenamesFields_without_placeholder_witness :
  options (page (updateFilenamesFields "filenameTurn"
                   (mkScript (mkWorld ∅ [] {[ "filenameTurn" := [] ]} ∅ ∅ 0 [])
                      ["a.wav"; "b.wav"] ∅)).2) !! "filenameTurn"
    = Some ["a.wav"; "b.wav"]
  /\ options (page (updateFilenamesFields "filenameTurn"
                      (updateFilenamesFields "filenameTurn"
                         (mkScript (mkWorld ∅ [] {[ "filenameTurn" := [] ]} ∅ ∅ 0 [])
                            ["a.wav"; "b.wav"] ∅)).2).2) !! "filenameTurn"
     = Some (["a.wav"; "b.wav"] ++ ["a.wav"]).
Proof.
  apply (updateFilenamesFields_without_placeholder "filenameTurn"
           (mkScript (mkWorld ∅ [] {[ "filenameTurn" := [] ]} ∅ ∅ 0 [])
              ["a.wav"; "b.wav"] ∅)
           "a.wav" ["b.wav"]); [reflexivity|reflexivity|].
  apply NoDup_ListNoDup. repeat constructor; simpl; intuition discriminate.
Defined.

Lemma updateFilenamesFields_no_duplicates_witness :
  exists rest',
    options (page (updateFilenamesFields "filenameTurn"
                     (sample_script ["a.wav"; "c.wav"])).2) !! "filenameTurn"
      = Some (EmptyString :: rest')
    /\ NoDup rest'.
Proof.
  apply (updateFilenamesFields_no_duplicates "filenameTurn"
           (sample_script ["a.wav"; "c.wav"]) EmptyString ["a.wav"; "b.wav"]);
    [reflexivity| |];
    apply NoDup_ListNoDup; repeat constructor; simpl; intuition discriminate.
Defined.

Lemma refreshData_offers_every_filename_witness :
  registeredFilenames (refreshData info_ok_answer info_ok_answer false
                         (sample_script [])).2
    = ["a.wav"; "b.wav"; "c.wav"]
  /\ forall listId opts,
       listId ∈ listIds ->
       options (page (sample_script [])) !! listId = Some opts ->
       exists added,
         options (page (refreshData info_ok_answer info_ok_answer false
                          (sample_script [])).2) !! listId
           = Some (opts ++ added)
         /\ forall f, f ∈ ["a.wav"; "b.wav"; "c.wav"] -> f ∈ opts ++ added.
Proof.
  apply (refreshData_offers_every_filename info_ok_answer info_ok_answer false
           (sample_script [])
           {| info_ok := true; info_details := None; nb_of_docs := 3;
              filenames := ["a.wav"; "b.wav"; "c.wav"] |});
    reflexivity.
Defined.

Lemma refreshData_without_displays_witness :
  options (page (refreshData info_ok_answer info_ok_answer true
                   (mkScript (query_page "10" "90" "50" "60") [] ∅)).2)
    = options (query_page "10" "90" "50" "60")
  /\ registeredFilenames (refreshData info_ok_answer info_ok_answer true
                            (mkScript (query_page "10" "90" "50" "60") [] ∅)).2
     = ["a.wav"; "b.wav"; "c.wav"]
  /\ In (LogError "Error during initialization:" (TypeError "humanBorneInfDisplay"))
       (trace (page (refreshData info_ok_answer info_ok_answer true
                       (mkScript (query_page "10" "90" "50" "60") [] ∅)).2))
  /\ (refreshData info_ok_answer info_ok_answer true
        (mkScript (query_page "10" "90" "50" "60") [] ∅)).1 = inr tt.
Proof.
  apply (refreshData_without_displays info_ok_answer info_ok_answer true
           (mkScript (query_page "10" "90" "50" "60") [] ∅)
           (TypeError "humanBorneInfDisplay")).
  reflexivity.
Defined.
